(** * haptools.data.genotypes: the genotype matrix and its validation steps

    A shallow embedding of [src/haptools/data/genotypes.py]: the numpy arrays
    the module builds (row-major buffers with a shape and a dtype), the
    [Genotypes] object as an explicit state, its methods as computations in a
    state-and-exception monad, and the [GenotypesPLINK.read] method. *)

From Stdlib Require Import String Ascii DecimalString.
From Stdlib Require Import ZArith Lia Bool Arith PeanoNat List.
From Stdlib Require Import Floats.
Import ListNotations.

Set Warnings "-inexact-float".

(** ** numpy arrays *)

(** The element types this module uses: [np.bool_], [np.uint8] (the VCF
    loader) and [np.int32] (the buffer of the PLINK loader). *)
Inductive dtype : Set := bool_ | uint8 | int32.

Definition dtype_eqb (a b : dtype) : bool :=
  match a, b with
  | bool_, bool_ | uint8, uint8 | int32, int32 => true
  | _, _ => false
  end.

(** The arrays built here have one to three axes: [np.array] over the list of
    per-variant genotype lists yields shape [(0,)] for no record, [(p, 0)] for
    records without samples and [(p, n, c)] otherwise. *)
Inductive shape : Set :=
| Sh1 (n : nat)
| Sh2 (n m : nat)
| Sh3 (n m c : nat).

Definition shape_eqb (a b : shape) : bool :=
  match a, b with
  | Sh1 n, Sh1 n' => Nat.eqb n n'
  | Sh2 n m, Sh2 n' m' => Nat.eqb n n' && Nat.eqb m m'
  | Sh3 n m c, Sh3 n' m' c' => Nat.eqb n n' && Nat.eqb m m' && Nat.eqb c c'
  | _, _ => false
  end.

(** An array: element type, shape, and the elements in row-major order.
    A [bool_] array holds 0 and 1. *)
Record ndarray : Set := mk_ndarray {
  arr_dtype : dtype;
  arr_shape : shape;
  arr_buf : list Z
}.

Definition size_of (s : shape) : nat :=
  match s with
  | Sh1 n => n
  | Sh2 n m => n * m
  | Sh3 n m c => n * m * c
  end.

(** The buffer has as many elements as the shape says. *)
Definition well_shaped (a : ndarray) : Prop :=
  length (arr_buf a) = size_of (arr_shape a).

Definition build2 (dt : dtype) (n m : nat) (f : nat -> nat -> Z) : ndarray :=
  mk_ndarray dt (Sh2 n m)
    (flat_map (fun i => map (f i) (seq 0 m)) (seq 0 n)).

Definition build3 (dt : dtype) (n m c : nat) (f : nat -> nat -> nat -> Z)
  : ndarray :=
  mk_ndarray dt (Sh3 n m c)
    (flat_map (fun i => flat_map (fun j => map (f i j) (seq 0 c)) (seq 0 m))
       (seq 0 n)).

(** [a[i, j]] and [a[i, j, k]] of an array with two, resp. three, axes. *)
Definition get2 (a : ndarray) (i j : nat) : Z :=
  match arr_shape a with
  | Sh2 _ m => nth (i * m + j) (arr_buf a) 0%Z
  | _ => 0%Z
  end.

Definition get3 (a : ndarray) (i j k : nat) : Z :=
  match arr_shape a with
  | Sh3 _ m c => nth ((i * m + j) * c + k) (arr_buf a) 0%Z
  | _ => 0%Z
  end.

(** ** The numpy operations the module calls

    Each operation is given by its value at every index, which is how numpy
    defines it; [build2] and [build3] lay the values out in row-major order. *)

(** Results of fallible calls: Python raises, the model returns [Raise]. *)
Inductive message : Set :=
| Multiallelic (id chrom : string) (pos : N) (sample : string)
| Unphased (id chrom : string) (pos : N) (sample : string)
| Text (s : string).

Inductive exn : Set :=
| ValueError (m : message)
| TypeError (s : string)
| IndexError (s : string)
| AttributeError (s : string).

Inductive result (A : Type) : Type :=
| Ok (a : A)
| Raise (e : exn).
Arguments Ok {A} a.
Arguments Raise {A} e.

(** [str.format] of the two messages the module raises. *)
Definition str_of_N (n : N) : string :=
  DecimalString.NilZero.string_of_uint (N.to_uint n).

Definition render (m : message) : string :=
  match m with
  | Multiallelic id chrom pos sample =>
      "Variant with ID " ++ id ++ " at POS " ++ chrom ++ ":" ++ str_of_N pos
        ++ " is multiallelic for sample " ++ sample
  | Unphased id chrom pos sample =>
      "Variant with ID " ++ id ++ " at POS " ++ chrom ++ ":" ++ str_of_N pos
        ++ " is unphased for sample " ++ sample
  | Text s => s
  end%string.

Definition same_length {A : Type} (n : nat) (l : list (list A)) : bool :=
  forallb (fun r => Nat.eqb (length r) n) l.

Definition inhomogeneous : exn :=
  ValueError (Text "setting an array element with a sequence").

(** [np.array(l, dtype=np.uint8)] for the list [self.data] that [read]
    collects: one entry per variant, each a list over the samples of
    [[allele1, allele2, phased]].  An empty outer list gives shape [(0,)];
    rows of unequal length are refused.  Values are stored modulo 256, the
    wrap-around of numpy 1.x for the [-1] of a missing allele. *)
Definition np_array_uint8 (l : list (list (list Z))) : result ndarray :=
  match l with
  | [] => Ok (mk_ndarray uint8 (Sh1 0) [])
  | r :: _ =>
      let p := length l in
      let n := length r in
      if negb (same_length n l) then Raise inhomogeneous
      else match r with
           | [] => Ok (mk_ndarray uint8 (Sh2 p 0) [])
           | t :: _ =>
               let c := length t in
               if negb (forallb (same_length c) l) then Raise inhomogeneous
               else Ok (build3 uint8 p n c
                          (fun j i k =>
                             (nth k (nth i (nth j l []) []) 0 mod 256)%Z))
           end
  end.

(** [a.transpose((1, 0, 2))]: needs three axes. *)
Definition transpose_102 (a : ndarray) : result ndarray :=
  match arr_shape a with
  | Sh3 p n c =>
      Ok (build3 (arr_dtype a) n p c (fun i j k => get3 a j i k))
  | _ => Raise (ValueError (Text "axes don't match array"))
  end.

(** [a.astype(np.bool_)]: nonzero becomes [True]. *)
Definition truth (z : Z) : Z := if (z =? 0)%Z then 0%Z else 1%Z.

Definition astype_bool (a : ndarray) : ndarray :=
  mk_ndarray bool_ (arr_shape a) (map truth (arr_buf a)).

(** [a[:, :, :2]], [a[:, :, k]], [a > 1] and [np.any(a, axis=2)] on an array
    of three axes. *)
Definition too_many_indices : exn :=
  IndexError "too many indices for array".

Definition strands (a : ndarray) : result ndarray :=
  match arr_shape a with
  | Sh3 n m c => Ok (build3 (arr_dtype a) n m (Nat.min 2 c) (get3 a))
  | _ => Raise too_many_indices
  end.

Definition channel (a : ndarray) (k : nat) : result ndarray :=
  match arr_shape a with
  | Sh3 n m c =>
      if c <=? k then Raise (IndexError "index is out of bounds for axis 2")
      else Ok (build2 (arr_dtype a) n m (fun i j => get3 a i j k))
  | _ => Raise too_many_indices
  end.

Definition gt1 (a : ndarray) : ndarray :=
  mk_ndarray bool_ (arr_shape a)
    (map (fun z => if (1 <? z)%Z then 1%Z else 0%Z) (arr_buf a)).

Definition any_axis2 (a : ndarray) : result ndarray :=
  match arr_shape a with
  | Sh3 n m c =>
      Ok (build2 bool_ n m
            (fun i j =>
               if existsb (fun k => negb (get3 a i j k =? 0)%Z) (seq 0 c)
               then 1%Z else 0%Z))
  | _ => Raise (ValueError (Text "axis 2 is out of bounds for array"))
  end.

(** [np.any(a)] and [np.nonzero(a)] of a mask with two axes; the indices come
    in row-major order, as a pair of parallel index lists. *)
Definition np_any (a : ndarray) : bool :=
  existsb (fun z => negb (z =? 0)%Z) (arr_buf a).

Definition nonzero_pairs (a : ndarray) : list (nat * nat) :=
  match arr_shape a with
  | Sh2 n m =>
      flat_map
        (fun i =>
           flat_map
             (fun j => if (get2 a i j =? 0)%Z then [] else [(i, j)])
             (seq 0 m))
        (seq 0 n)
  | _ => []
  end.

Definition np_nonzero (a : ndarray) : list nat * list nat :=
  split (nonzero_pairs a).

(** [np.delete(a, idx, axis=1)]: the columns whose index occurs in [idx] go
    (repeats count once), the others stay in order; an index past the axis is
    refused. *)
Definition out_of_bounds : exn :=
  IndexError "index is out of bounds for axis".

Definition kept (gone : nat -> bool) (m : nat) : list nat :=
  filter (fun j => negb (gone j)) (seq 0 m).

Definition listed (idx : list nat) (j : nat) : bool :=
  existsb (Nat.eqb j) idx.

Definition np_delete_axis1 (a : ndarray) (idx : list nat) : result ndarray :=
  match arr_shape a with
  | Sh3 n m c =>
      if existsb (fun j => m <=? j) idx then Raise out_of_bounds
      else
        let keep := kept (listed idx) m in
        Ok (build3 (arr_dtype a) n (length keep) c
              (fun i j k => get3 a i (nth j keep 0) k))
  | _ => Raise (IndexError "axis 1 is out of bounds for array")
  end.

(** [a ^ b], [a & b] and [~a] on masks of two axes of one shape.  [~] is the
    logical not of a [bool_] array and the bitwise complement of an integer
    array: [255 - x] for [uint8], [-x - 1] for [int32]. *)
Definition invert (dt : dtype) (z : Z) : Z :=
  match dt with
  | bool_ => if (z =? 0)%Z then 1%Z else 0%Z
  | uint8 => (255 - z)%Z
  | int32 => Z.lnot z
  end.

Definition pointwise2 (op : Z -> Z -> Z) (a b : ndarray) : ndarray :=
  match arr_shape a with
  | Sh2 n m =>
      build2 (arr_dtype a) n m (fun i j => op (get2 a i j) (get2 b i j))
  | _ => a
  end.

Definition np_xor : ndarray -> ndarray -> ndarray := pointwise2 Z.lxor.
Definition np_and : ndarray -> ndarray -> ndarray := pointwise2 Z.land.

Definition np_invert (a : ndarray) : ndarray :=
  mk_ndarray (arr_dtype a) (arr_shape a)
    (map (invert (arr_dtype a)) (arr_buf a)).

(** ** Variant records and the reader *)

(** One row of [self.variants]: id, chrom, pos and the frequency field. *)
Record variant_rec : Set := mk_variant_rec {
  v_id : string;
  v_chrom : string;
  v_pos : N;
  v_freq : float
}.

(** [self.variants]: the plain empty array [np.array([])] of [__init__], or a
    structured array whose fields are named [id], [chrom], [pos] and
    [freq_name] ("aaf" after [read], "maf" after [to_MAC]). *)
Inductive variants_arr : Set :=
| PlainEmpty
| Structured (freq_name : string) (rows : list variant_rec).

Definition len_variants (v : variants_arr) : nat :=
  match v with
  | PlainEmpty => 0
  | Structured _ rows => length rows
  end.

(** A record of the VCF reader (cyvcf2's [Variant]) and an opened reader:
    its sample names and the records it yields for a region. *)
Record Variant : Set := mk_Variant {
  ID : string;
  CHROM : string;
  POS : N;
  aaf : float;
  genotypes : list (list Z)
}.

Record VCF : Set := mk_VCF {
  vcf_samples : list string;
  vcf_call : option string -> list Variant
}.

(** ** The [Genotypes] object *)

(** [self.data] is [None] until [read], the Python list of genotype lists
    while [read] collects the records, and a numpy array afterwards. *)
Inductive data_val : Set :=
| DNone
| DList (l : list (list (list Z)))
| DArray (a : ndarray).

Record Genotypes : Set := mk_Genotypes {
  fname : string;
  log : list string;
  data : data_val;
  samples : list string;
  variants : variants_arr
}.

(** Modelled from the spec: [Data.__init__] of the base class
    (haptools/data/data.py is not part of the sources).  Section 3: an object
    is constructed bound to its source, with no data loaded and nothing
    logged. *)
Definition Data_init (path : string) : Genotypes :=
  mk_Genotypes path [] DNone [] PlainEmpty.

(** [Genotypes.__init__]: [samples = tuple()], [variants = np.array([])]. *)
Definition Genotypes_init (path : string) : Genotypes :=
  let self := Data_init path in
  mk_Genotypes (fname self) (log self) (data self) [] PlainEmpty.

(** Methods run on the object and either return or raise; what they assigned
    before raising stays assigned. *)
Definition M (A : Type) : Type := Genotypes -> result A * Genotypes.

Definition ret {A : Type} (a : A) : M A := fun self => (Ok a, self).

Definition bind {A B : Type} (c : M A) (k : A -> M B) : M B :=
  fun self =>
    match c self with
    | (Ok a, self') => k a self'
    | (Raise e, self') => (Raise e, self')
    end.

Definition raise {A : Type} (e : exn) : M A := fun self => (Raise e, self).

Definition lift {A : Type} (r : result A) : M A :=
  fun self => (r, self).

Definition get {A : Type} (field : Genotypes -> A) : M A :=
  fun self => (Ok (field self), self).

Declare Scope py_scope.
Delimit Scope py_scope with py.
Notation "x <- c ;; k" := (bind c (fun x => k))
  (at level 61, c at next level, right associativity) : py_scope.
Notation "c ;;; k" := (bind c (fun _ => k))
  (at level 61, right associativity) : py_scope.
Open Scope py_scope.

Definition set_data (d : data_val) : M unit :=
  fun self =>
    (Ok tt, mk_Genotypes (fname self) (log self) d (samples self)
              (variants self)).

Definition set_samples (s : list string) : M unit :=
  fun self =>
    (Ok tt, mk_Genotypes (fname self) (log self) (data self) s
              (variants self)).

Definition set_variants (v : variants_arr) : M unit :=
  fun self =>
    (Ok tt, mk_Genotypes (fname self) (log self) (data self) (samples self)
              v).

(** [self.log.warning(msg)] *)
Definition warning (msg : string) : M unit :=
  fun self =>
    (Ok tt, mk_Genotypes (fname self) (log self ++ [msg]) (data self)
              (samples self) (variants self)).

(** [self.data.<attr>]: [None] and a list have neither [dtype] nor [shape]. *)
Definition data_attr : M ndarray :=
  d <- get data ;;
  match d with
  | DArray a => ret a
  | _ => raise (AttributeError "object has no attribute")
  end.

(** [self.data[...]] with a tuple index. *)
Definition data_item : M ndarray :=
  d <- get data ;;
  match d with
  | DArray a => ret a
  | DNone => raise (TypeError "'NoneType' object is not subscriptable")
  | DList _ => raise (TypeError "list indices must be integers or slices")
  end.

(** [l[i]] of a tuple or of an index array. *)
Definition item {A : Type} (l : list A) (i : nat) : result A :=
  match nth_error l i with
  | Some x => Ok x
  | None => Raise (IndexError "index out of range")
  end.

(** [self.variants[i]] *)
Definition variants_item (v : variants_arr) (i : nat) : result variant_rec :=
  match v with
  | PlainEmpty => Raise out_of_bounds
  | Structured _ rows => item rows i
  end.

(** [np.delete(self.variants, idx)]: the rows whose position is listed go. *)
Definition remove_where {A : Type} (gone : nat -> bool) (l : list A) : list A :=
  map snd
    (filter (fun p => negb (gone (fst p))) (combine (seq 0 (length l)) l)).

Definition np_delete_variants (v : variants_arr) (idx : list nat)
  : result variants_arr :=
  if existsb (fun j => len_variants v <=? j) idx then Raise out_of_bounds
  else
    match v with
    | PlainEmpty => Ok PlainEmpty
    | Structured nm rows => Ok (Structured nm (remove_where (listed idx) rows))
    end.

(** ** [Genotypes.read] *)

(** Modelled from the spec: [Data.read] of the base class (not part of the
    sources).  Section 4.1 and [test_load_genotypes]: reading into an object
    that already holds data logs one warning and goes on to overwrite it. *)
Definition Data_read : M unit :=
  d <- get data ;;
  match d with
  | DNone => ret tt
  | _ => warning "The data has already been loaded. Overriding."
  end.

(** The dtype of [self.variants]: [id] is [U50], [chrom] is [U10]. *)
Definition variant_row (v : Variant) : variant_rec :=
  mk_variant_rec (substring 0 50 (ID v)) (substring 0 10 (CHROM v)) (POS v)
    (aaf v).

Definition empty_warning : string :=
  "Failed to load genotypes. If you specified a region, check that the contig name matches! For example, double-check the 'chr' prefix.".

(** [open_vcf] stands for cyvcf2's [VCF(path, samples=...)]. *)
Definition read (open_vcf : string -> option (list string) -> VCF)
    (region : option string) (sample_list : option (list string)) : M unit :=
  Data_read ;;;
  path <- get fname ;;
  let vcf := open_vcf path sample_list in
  set_samples (vcf_samples vcf) ;;;
  (* the loop over vcf(region) appends one entry per record to both lists *)
  let records := vcf_call vcf region in
  set_data (DList (map genotypes records)) ;;;
  set_variants (Structured "aaf" (map variant_row records)) ;;;
  a <- lift (np_array_uint8 (map genotypes records)) ;;
  set_data (DArray a) ;;;
  (if shape_eqb (arr_shape a) (Sh3 0 0 0) then warning empty_warning
   else ret tt) ;;;
  t <- lift (transpose_102 a) ;;
  set_data (DArray t).

(** ** [Genotypes.check_biallelic] *)

Definition check_biallelic (discard_also : bool) : M unit :=
  a <- data_attr ;;
  if dtype_eqb (arr_dtype a) bool_ then
    warning "All genotypes are already biallelic"
  else
    s <- lift (strands a) ;;
    multiallelic <- lift (any_axis2 (gt1 s)) ;;
    (if np_any multiallelic then
       let '(samp_idx, variant_idx) := np_nonzero multiallelic in
       if discard_also then
         d <- lift (np_delete_axis1 a variant_idx) ;;
         set_data (DArray d) ;;;
         v <- get variants ;;
         v' <- lift (np_delete_variants v variant_idx) ;;
         set_variants v'
       else
         vi <- lift (item variant_idx 0) ;;
         v <- get variants ;;
         r <- lift (variants_item v vi) ;;
         si <- lift (item samp_idx 0) ;;
         names <- get samples ;;
         name <- lift (item names si) ;;
         raise (ValueError (Multiallelic (v_id r) (v_chrom r) (v_pos r) name))
     else ret tt) ;;;
    a' <- data_attr ;;
    set_data (DArray (astype_bool a')).

(** ** [Genotypes.check_phase] *)

(** [self.data.shape[2]] *)
Definition shape_2 (a : ndarray) : result nat :=
  match arr_shape a with
  | Sh3 _ _ c => Ok c
  | _ => Raise (IndexError "tuple index out of range")
  end.

Definition check_phase : M unit :=
  a <- data_attr ;;
  c <- lift (shape_2 a) ;;
  if c <? 3 then
    warning "Phase information has already been removed from the data"
  else
    s0 <- lift (channel a 0) ;;
    s1 <- lift (channel a 1) ;;
    s2 <- lift (channel a 2) ;;
    let unphased := np_and (np_xor s0 s1) (np_invert s2) in
    (if np_any unphased then
       let '(samp_idx, variant_idx) := np_nonzero unphased in
       vi <- lift (item variant_idx 0) ;;
       v <- get variants ;;
       r <- lift (variants_item v vi) ;;
       si <- lift (item samp_idx 0) ;;
       names <- get samples ;;
       name <- lift (item names si) ;;
       raise (ValueError (Unphased (v_id r) (v_chrom r) (v_pos r) name))
     else ret tt) ;;;
    s <- lift (strands a) ;;
    set_data (DArray s).

(** ** [Genotypes.to_MAC] *)

Definition maf_warning : string :=
  "The matrix already counts instances of the minor allele rather than the ALT allele.".

(** [a[:, mask, :2] = ~a[:, mask, :2]] with a boolean mask over axis 1. *)
Definition flip_columns (a : ndarray) (mask : list bool) : result ndarray :=
  match arr_shape a with
  | Sh3 n m c =>
      if negb (length mask =? m) then
        Raise (IndexError "boolean index did not match indexed array")
      else
        Ok (build3 (arr_dtype a) n m c
              (fun i j k =>
                 if (k <? 2) && nth j mask false
                 then invert (arr_dtype a) (get3 a i j k)
                 else get3 a i j k))
  | _ => Raise too_many_indices
  end.

(** [x["aaf"][need] = 1 - x["aaf"][need]] on one row. *)
Definition recode_row (r : variant_rec) : variant_rec :=
  if (0.5 <? v_freq r)%float
  then mk_variant_rec (v_id r) (v_chrom r) (v_pos r) (1 - v_freq r)%float
  else r.

Definition to_MAC : M unit :=
  v <- get variants ;;
  match v with
  | PlainEmpty => raise (TypeError "'NoneType' object is not subscriptable")
  | Structured name3 rows =>
      if String.eqb name3 "maf" then warning maf_warning
      else if negb (String.eqb name3 "aaf") then
        raise (ValueError (Text "no field of name aaf"))
      else
        let need_conversion := map (fun r => (0.5 <? v_freq r)%float) rows in
        a <- data_item ;;
        a' <- lift (flip_columns a need_conversion) ;;
        set_data (DArray a') ;;;
        set_variants (Structured name3 (map recode_row rows)) ;;;
        set_variants (Structured "maf" (map recode_row rows))
  end.

(** ** [Genotypes.load] *)

(** [load] constructs the object, reads, and runs the two checks in this
    order; [to_MAC] is left to the caller. *)
Definition load (open_vcf : string -> option (list string) -> VCF)
    (path : string) (region : option string)
    (sample_list : option (list string)) : result unit * Genotypes :=
  (read open_vcf region sample_list ;;;
   check_biallelic false ;;;
   check_phase) (Genotypes_init path).

(** ** [GenotypesPLINK.read] *)

(** The Python values of the two range bounds. *)
Inductive pyobj : Set :=
| PyNone
| PyInt (z : Z).

(** [a - b]: defined on integers, a [TypeError] when an operand is [None]. *)
Definition py_sub (a b : pyobj) : result pyobj :=
  match a, b with
  | PyInt x, PyInt y => Ok (PyInt (x - y))
  | _, _ => Raise (TypeError "unsupported operand type(s) for -")
  end.

(** pgenlib's [PgenReader]: the raw sample count and the allele codes that
    [read_alleles_range] writes, by variant row and strand column. *)
Record PgenReader : Set := mk_PgenReader {
  get_raw_sample_ct : nat;
  read_alleles_range : pyobj -> pyobj -> nat -> nat -> Z
}.

(** [np.empty((rows, cols), np.int32)] filled by [read_alleles_range]. *)
Definition np_empty_filled (rows : pyobj) (cols : nat)
    (fill : nat -> nat -> Z) : result ndarray :=
  match rows with
  | PyInt z =>
      if (z <? 0)%Z then Raise (ValueError (Text "negative dimensions"))
      else Ok (build2 int32 (Z.to_nat z) cols fill)
  | PyNone => Raise (TypeError "expected a sequence of integers")
  end.

(** [np.dstack((a[:, ::2], a[:, 1::2]))]: the even and the odd columns
    side by side on a new last axis. *)
Definition dstack_strands (a : ndarray) : result ndarray :=
  match arr_shape a with
  | Sh2 p w =>
      Ok (build3 (arr_dtype a) p (Nat.div2 w) 2
            (fun i j k => get2 a i (2 * j + k)))
  | _ => Raise too_many_indices
  end.

Definition GenotypesPLINK_read (open_pgen : string -> PgenReader)
    (region : option string) (sample_list : option (list string)) : M unit :=
  Data_read ;;;
  let variant_ct_start := PyInt 0 in
  let variant_ct_end := PyNone in
  variant_ct <- lift (py_sub variant_ct_end variant_ct_start) ;;
  path <- get fname ;;
  let pgen := open_pgen path in
  let sample_ct := get_raw_sample_ct pgen in
  buffer <- lift (np_empty_filled variant_ct (sample_ct * 2)
                    (read_alleles_range pgen variant_ct_start variant_ct_end)) ;;
  set_data (DArray buffer) ;;;
  stacked <- lift (dstack_strands buffer) ;;
  set_data (DArray stacked) ;;;
  t <- lift (transpose_102 stacked) ;;
  set_data (DArray t).

(** ** Vocabulary of the statements *)

(** The object after one more warning; nothing else differs. *)
Definition warned (w : string) (g : Genotypes) : Genotypes :=
  mk_Genotypes (fname g) (log g ++ [w]) (data g) (samples g) (variants g).

(** The number of allele channels of a tensor. *)
Definition channels (a : ndarray) : nat :=
  match arr_shape a with
  | Sh3 _ _ c => c
  | _ => 0
  end.

(** Sample [i] has a value above 1 in one of the two strand channels of
    variant [j]; variant [j] has such a value for some sample. *)
Definition multiallelic_at (a : ndarray) (i j : nat) : bool :=
  existsb (fun k => (1 <? get3 a i j k)%Z) (seq 0 (Nat.min 2 (channels a))).

Definition multiallelic_col (a : ndarray) (n : nat) (j : nat) : bool :=
  existsb (fun i => multiallelic_at a i j) (seq 0 n).

(** Section 4.3 of the specification: the call of sample [i] at variant [j]
    is heterozygous ([strand1 != strand2]) and its phase flag is false. *)
Definition heterozygous_unphased (a : ndarray) (i j : nat) : bool :=
  negb (get3 a i j 0 =? get3 a i j 1)%Z && (get3 a i j 2 =? 0)%Z.

(** What the expression of [check_phase] computes for that call. *)
Definition unphased_bits (a : ndarray) (i j : nat) : Z :=
  Z.land (Z.lxor (get3 a i j 0) (get3 a i j 1))
    (invert (arr_dtype a) (get3 a i j 2)).

(** The (sample, variant) pairs of an [n] by [m] tensor in sample-major scan
    order, and the first pair of that order that a test flags. *)
Definition scan_order (n m : nat) : list (nat * nat) :=
  list_prod (seq 0 n) (seq 0 m).

Definition first_flagged (flag : nat -> nat -> bool) (n m : nat)
  : option (nat * nat) :=
  find (fun p => flag (fst p) (snd p)) (scan_order n m).

(** The two axes of the tensor agree with the metadata. *)
Definition axes_agree (g : Genotypes) : Prop :=
  match data g with
  | DArray a =>
      match arr_shape a with
      | Sh3 n m _ => n = length (samples g) /\ m = len_variants (variants g)
      | _ => False
      end
  | _ => False
  end.

(** The reader hands out one call per selected sample in every record. *)
Definition reader_consistent (vcf : VCF) : Prop :=
  forall region v,
    In v (vcf_call vcf region) ->
    length (genotypes v) = length (vcf_samples vcf).

(** The object after a series of method calls, whatever each call returned or
    raised. *)
Definition after (steps : list (M unit)) (g : Genotypes) : Genotypes :=
  fold_left (fun self step => snd (step self)) steps g.

Definition is_step (step : M unit) : Prop :=
  (exists b, step = check_biallelic b) \/ step = check_phase \/ step = to_MAC.

(** What a failing check reports for the pair [(i, j)]: the lookups of
    [self.variants[j]] and [self.samples[i]], then the [ValueError]. *)
Definition report (kind : string -> string -> N -> string -> message)
    (g : Genotypes) (i j : nat) : result unit :=
  match variants_item (variants g) j with
  | Raise e => Raise e
  | Ok r =>
      match item (samples g) i with
      | Raise e => Raise e
      | Ok name => Raise (ValueError (kind (v_id r) (v_chrom r) (v_pos r) name))
      end
  end.

(** The tensor of an object that holds one. *)
Definition tensor (g : Genotypes) : ndarray :=
  match data g with
  | DArray a => a
  | _ => mk_ndarray uint8 (Sh1 0) []
  end.

(** Every strand value and phase flag of the tensor is 0 or 1. *)
Definition narrow_values (a : ndarray) (n m : nat) : Prop :=
  forall i j k, i < n -> j < m -> k < 3 -> (0 <= get3 a i j k <= 1)%Z.

(** ** The test fixture

    [tests/data/simple.vcf] as [tests/test_data.py] describes it: five samples
    and four variants, every call phased; variant 1 is [1:10116:A:G] with
    alternate frequency 0.6. *)
Definition simple_samples : list string :=
  ["HG00096"; "HG00097"; "HG00099"; "HG00100"; "HG00101"]%string.

Definition hom_ref : list (list Z) :=
  [[0; 0; 1]; [0; 0; 1]; [0; 0; 1]; [0; 0; 1]; [0; 0; 1]]%Z.

Definition simple_records : list Variant :=
  [ mk_Variant "1:10114:T:C" "1" 10114 0 hom_ref;
    mk_Variant "1:10116:A:G" "1" 10116 0.6
      [[0; 1; 1]; [0; 1; 1]; [1; 1; 1]; [1; 1; 1]; [0; 0; 1]]%Z;
    mk_Variant "1:10117:C:A" "1" 10117 0 hom_ref;
    mk_Variant "1:10122:A:G" "1" 10122 0 hom_ref ].

(** A reader double over the fixture.  Like htslib, which cyvcf2 wraps, it
    marks the selected samples in the header and hands them out in header
    order; the region [1:10115-10117] selects by position, any other region
    names a contig the file does not have. *)
Definition selected {A : Type} (sel : option (list string)) (row : list A)
  : list A :=
  match sel with
  | None => row
  | Some names =>
      map snd
        (filter (fun p => existsb (String.eqb (fst p)) names)
           (combine simple_samples row))
  end.

Definition in_region (region : option string) (l : list Variant)
  : list Variant :=
  match region with
  | None => l
  | Some r =>
      if String.eqb r "1:10115-10117"
      then filter (fun v => (10115 <=? POS v)%N && (POS v <=? 10117)%N) l
      else []
  end.

Definition simple_vcf (path : string) (sel : option (list string)) : VCF :=
  mk_VCF (selected sel simple_samples)
    (fun region =>
       map (fun v =>
              mk_Variant (ID v) (CHROM v) (POS v) (aaf v)
                (selected sel (genotypes v)))
         (in_region region simple_records)).

Definition loaded : Genotypes :=
  snd (read simple_vcf None None (Genotypes_init "simple.vcf")).

(** [gts.data[i, j, k] = v], as the tests write one entry of the tensor. *)
Definition set_item3 (a : ndarray) (i j k : nat) (v : Z) : ndarray :=
  match arr_shape a with
  | Sh3 n m c =>
      build3 (arr_dtype a) n m c
        (fun i' j' k' =>
           if (i' =? i) && (j' =? j) && (k' =? k) then v else get3 a i' j' k')
  | _ => a
  end.

Definition poke (i j k : nat) (v : Z) (g : Genotypes) : Genotypes :=
  match data g with
  | DArray a =>
      mk_Genotypes (fname g) (log g) (DArray (set_item3 a i j k v))
        (samples g) (variants g)
  | _ => g
  end.

(** The fixture with sample 1 carrying a third allele at variant 1, and with
    the heterozygous call of sample 1 at variant 1 left unphased. *)
Definition loaded_multiallelic : Genotypes := poke 1 1 1 2 loaded.
Definition loaded_unphased : Genotypes := poke 1 1 2 0 loaded.

(** The rows of [variants] that [read] builds from the fixture. *)
Definition simple_rows : list variant_rec := map variant_row simple_records.

(** [get_expected_genotypes] of [tests/test_data.py]. *)
Definition expected_genotypes : ndarray :=
  build3 uint8 5 4 3
    (fun i j k =>
       if k =? 2 then 1%Z
       else if (j =? 1) && (k =? 1) && (i <? 4) then 1%Z
       else if (j =? 1) && (k =? 0) && (2 <=? i) && (i <? 4) then 1%Z
       else 0%Z).

(** The fixture after the two checks of [load], and after [check_phase]
    alone. *)
Definition checked : Genotypes :=
  snd (check_phase (snd (check_biallelic false loaded))).

Definition phase_dropped : Genotypes := snd (check_phase loaded).

(** A source with one sample and the phased calls [2|0] and, for the second
    source, also the unphased call [0/1] at a second variant. *)
Definition third_allele_vcf (path : string) (sel : option (list string))
  : VCF :=
  mk_VCF ["S1"%string]
    (fun _ => [mk_Variant "rs1" "1" 100 0.5 [[2; 0; 1]]%Z]).

Definition third_allele : Genotypes :=
  snd (read third_allele_vcf None None (Genotypes_init "third.vcf")).

Definition two_calls_vcf (path : string) (sel : option (list string)) : VCF :=
  mk_VCF ["S1"%string]
    (fun _ => [mk_Variant "rs1" "1" 100 0.5 [[2; 0; 1]]%Z;
               mk_Variant "rs2" "1" 200 0.5 [[0; 1; 0]]%Z]).

Definition two_calls : Genotypes :=
  snd (read two_calls_vcf None None (Genotypes_init "two.vcf")).

(** ** [Genotypes.iterate] *)

(** One yielded [Record]: the calls of one variant (samples by channels), the
    sample names and the variant's metadata row. *)
Record Record_ : Set := mk_Record {
  rec_data : ndarray;
  rec_samples : list string;
  rec_variants : variant_rec
}.

(** [np.array(variant.genotypes, dtype=np.uint8)] for the calls of one
    variant: shape [(0,)] without samples, [(n, c)] for [n] calls of [c]
    entries each; calls of unequal length are refused. *)
Definition np_array_uint8_calls (l : list (list Z)) : result ndarray :=
  match l with
  | [] => Ok (mk_ndarray uint8 (Sh1 0) [])
  | call :: _ =>
      let n := length l in
      let c := length call in
      if negb (same_length c l) then Raise inhomogeneous
      else Ok (build2 uint8 n c
                 (fun i k => (nth k (nth i l []) 0 mod 256)%Z))
  end.

(** The generator's loop over the reader's records: the records yielded so
    far and, when building the array of a variant raises, the exception that
    ends the iteration. *)
Fixpoint yield_records (names : list string) (records : list Variant)
  : list Record_ * option exn :=
  match records with
  | [] => ([], None)
  | variant :: rest =>
      match np_array_uint8_calls (genotypes variant) with
      | Raise e => ([], Some e)
      | Ok d =>
          let (yielded, stop) := yield_records names rest in
          (mk_Record d names (variant_row variant) :: yielded, stop)
      end
  end.

(** [self.iterate(region, samples)] reads [self.fname] only and assigns
    nothing. *)
Definition iterate (open_vcf : string -> option (list string) -> VCF)
    (region : option string) (sample_list : option (list string))
    (self : Genotypes) : list Record_ * option exn :=
  let vcf := open_vcf (fname self) sample_list in
  let names := vcf_samples vcf in
  yield_records names (vcf_call vcf region).

(** ** More vocabulary *)

(** [a[:, j, :]]: the calls of variant [j], samples by channels. *)
Definition column (a : ndarray) (j : nat) : ndarray :=
  match arr_shape a with
  | Sh3 n _ c => build2 (arr_dtype a) n c (fun i k => get3 a i j k)
  | _ => a
  end.


(** [narrow_values], decided by inspection of the entries. *)
Definition narrow_check (a : ndarray) (n m : nat) : bool :=
  forallb
    (fun i =>
       forallb
         (fun j =>
            forallb
              (fun k => (0 <=? get3 a i j k)%Z && (get3 a i j k <=? 1)%Z)
              (seq 0 3))
         (seq 0 m))
    (seq 0 n).

(** An object that was constructed and never read. *)
Definition unread : Genotypes := Genotypes_init "simple.vcf".

(** * Properties *)

(** ** Row-major tables

    numpy stores an array as one buffer read in row-major order.  The two
    lemmas below locate an element of a buffer that was produced row by row. *)

Section RowMajor.
Context {A : Type}.

Lemma flat_map_rows_length (g : nat -> list A) (w : nat) (l : list nat) :
  (forall x, In x l -> length (g x) = w) ->
  length (flat_map g l) = length l * w.
Proof.
  induction l as [|x l IH]; intros Hw; simpl; [reflexivity|].
  rewrite length_app, Hw by (left; reflexivity).
  rewrite IH by (intros y Hy; apply Hw; right; exact Hy).
  reflexivity.
Qed.

Lemma nth_flat_map_rows (g : nat -> list A) (w : nat) (d : A) :
  forall (n s i r : nat),
    (forall x, length (g x) = w) ->
    i < n -> r < w ->
    nth (i * w + r) (flat_map g (seq s n)) d = nth r (g (s + i)) d.
Proof.
  induction n as [|n IH]; intros s i r Hw Hi Hr; [lia|].
  simpl. destruct i as [|i].
  - simpl. rewrite Nat.add_0_r.
    apply app_nth1. rewrite Hw. exact Hr.
  - rewrite app_nth2 by (rewrite Hw; simpl; lia).
    rewrite Hw.
    replace (S i * w + r - w) with (i * w + r) by (simpl; lia).
    rewrite IH by (auto; lia).
    f_equal. f_equal. lia.
Qed.
End RowMajor.

Lemma get2_build2 dt n m f i j :
  i < n -> j < m -> get2 (build2 dt n m f) i j = f i j.
Proof.
  intros Hi Hj. unfold get2, build2. simpl.
  rewrite (nth_flat_map_rows (fun i => map (f i) (seq 0 m)) m)
    by (auto; intros; rewrite length_map, length_seq; reflexivity).
  simpl. rewrite nth_indep with (d' := f i 0)
    by (rewrite length_map, length_seq; exact Hj).
  rewrite map_nth, seq_nth by exact Hj. reflexivity.
Qed.

Lemma get3_build3 dt n m c f i j k :
  i < n -> j < m -> k < c -> get3 (build3 dt n m c f) i j k = f i j k.
Proof.
  intros Hi Hj Hk. unfold get3, build3. simpl.
  assert (Hrow : forall x y, length (map (f x y) (seq 0 c)) = c)
    by (intros; rewrite length_map, length_seq; reflexivity).
  assert (Hpl : forall x,
    length (flat_map (fun j => map (f x j) (seq 0 c)) (seq 0 m)) = m * c).
  { intros x. rewrite (flat_map_rows_length _ c) by (intros; apply Hrow).
    rewrite length_seq. reflexivity. }
  replace ((i * m + j) * c + k) with (i * (m * c) + (j * c + k)) by lia.
  rewrite (nth_flat_map_rows _ (m * c)) by (auto; nia).
  simpl.
  rewrite (nth_flat_map_rows _ c) by auto.
  simpl. rewrite nth_indep with (d' := f i j 0) by (rewrite Hrow; exact Hk).
  rewrite map_nth, seq_nth by exact Hk. reflexivity.
Qed.

Lemma well_shaped_build2 dt n m f : well_shaped (build2 dt n m f).
Proof.
  unfold well_shaped, build2. simpl.
  rewrite (flat_map_rows_length _ m)
    by (intros; rewrite length_map, length_seq; reflexivity).
  rewrite length_seq. reflexivity.
Qed.

Lemma well_shaped_build3 dt n m c f : well_shaped (build3 dt n m c f).
Proof.
  unfold well_shaped, build3. simpl.
  rewrite (flat_map_rows_length _ (m * c)).
  - rewrite length_seq. lia.
  - intros x _. rewrite (flat_map_rows_length _ c)
      by (intros; rewrite length_map, length_seq; reflexivity).
    rewrite length_seq. reflexivity.
Qed.


(** ** Arrays given by their values *)

Lemma flat_map_ext_in {A B : Type} (f g : A -> list B) (l : list A) :
  (forall x, In x l -> f x = g x) -> flat_map f l = flat_map g l.
Proof.
  induction l as [|x l IH]; intros H; simpl; [reflexivity|].
  rewrite H by (left; reflexivity).
  rewrite IH by (intros y Hy; apply H; right; exact Hy).
  reflexivity.
Qed.

Lemma build2_ext dt n m (f f' : nat -> nat -> Z) :
  (forall i j, i < n -> j < m -> f i j = f' i j) ->
  build2 dt n m f = build2 dt n m f'.
Proof.
  intros H. unfold build2. f_equal.
  apply flat_map_ext_in. intros i Hi. apply in_seq in Hi.
  apply map_ext_in. intros j Hj. apply in_seq in Hj.
  apply H; lia.
Qed.

Lemma build3_ext dt n m c (f f' : nat -> nat -> nat -> Z) :
  (forall i j k, i < n -> j < m -> k < c -> f i j k = f' i j k) ->
  build3 dt n m c f = build3 dt n m c f'.
Proof.
  intros H. unfold build3. f_equal.
  apply flat_map_ext_in. intros i Hi. apply in_seq in Hi.
  apply flat_map_ext_in. intros j Hj. apply in_seq in Hj.
  apply map_ext_in. intros k Hk. apply in_seq in Hk.
  apply H; lia.
Qed.

Lemma map_flat_map_rows {A B C : Type} (g : B -> C) (h : A -> list B)
    (l : list A) :
  map g (flat_map h l) = flat_map (fun x => map g (h x)) l.
Proof.
  induction l as [|x l IH]; simpl; [reflexivity|].
  rewrite map_app, IH. reflexivity.
Qed.

Lemma map_build2 dt dt' n m f (g : Z -> Z) :
  mk_ndarray dt' (Sh2 n m) (map g (arr_buf (build2 dt n m f)))
  = build2 dt' n m (fun i j => g (f i j)).
Proof.
  unfold build2. simpl. f_equal.
  rewrite map_flat_map_rows. apply flat_map_ext_in. intros i _.
  apply map_map.
Qed.

Lemma map_build3 dt dt' n m c f (g : Z -> Z) :
  mk_ndarray dt' (Sh3 n m c) (map g (arr_buf (build3 dt n m c f)))
  = build3 dt' n m c (fun i j k => g (f i j k)).
Proof.
  unfold build3. simpl. f_equal.
  rewrite map_flat_map_rows. apply flat_map_ext_in. intros i _.
  rewrite map_flat_map_rows. apply flat_map_ext_in. intros j _.
  apply map_map.
Qed.

Lemma row_major_bound n m c i j k :
  i < n -> j < m -> k < c -> (i * m + j) * c + k < n * m * c.
Proof.
  intros Hi Hj Hk.
  assert (H1 : i * m + j + 1 <= n * m) by nia.
  apply (Nat.mul_le_mono_r _ _ c) in H1. lia.
Qed.

Lemma astype_bool_build3 dt n m c f :
  astype_bool (build3 dt n m c f)
  = build3 bool_ n m c (fun i j k => truth (f i j k)).
Proof. exact (map_build3 dt bool_ n m c f truth). Qed.

(** An element of an array after a map over its buffer. *)
Lemma get3_map (a : ndarray) dt' (g : Z -> Z) n m c i j k :
  well_shaped a -> arr_shape a = Sh3 n m c ->
  i < n -> j < m -> k < c ->
  get3 (mk_ndarray dt' (arr_shape a) (map g (arr_buf a))) i j k
  = g (get3 a i j k).
Proof.
  intros Hw Hs Hi Hj Hk. unfold get3. simpl. rewrite Hs.
  unfold well_shaped in Hw. rewrite Hs in Hw. simpl in Hw.
  rewrite nth_indep with (d' := g 0%Z) by (rewrite length_map, Hw; apply row_major_bound; assumption).
  apply map_nth.
Qed.

(** ** Masks and the scan order *)

Lemma existsb_ext_in {A : Type} (f g : A -> bool) (l : list A) :
  (forall x, In x l -> f x = g x) -> existsb f l = existsb g l.
Proof.
  induction l as [|x l IH]; intros H; simpl; [reflexivity|].
  rewrite H by (left; reflexivity).
  rewrite IH by (intros y Hy; apply H; right; exact Hy).
  reflexivity.
Qed.

Lemma existsb_map {A B : Type} (f : B -> bool) (g : A -> B) (l : list A) :
  existsb f (map g l) = existsb (fun x => f (g x)) l.
Proof.
  induction l as [|x l IH]; simpl; [reflexivity|]. rewrite IH. reflexivity.
Qed.

Lemma existsb_flat_map {A B : Type} (f : B -> bool) (h : A -> list B)
    (l : list A) :
  existsb f (flat_map h l) = existsb (fun x => existsb f (h x)) l.
Proof.
  induction l as [|x l IH]; simpl; [reflexivity|].
  rewrite existsb_app, IH. reflexivity.
Qed.

Lemma existsb_list_prod {A B : Type} (f : A * B -> bool) (l : list A)
    (l' : list B) :
  existsb f (list_prod l l')
  = existsb (fun x => existsb (fun y => f (x, y)) l') l.
Proof.
  induction l as [|x l IH]; simpl; [reflexivity|].
  rewrite existsb_app, existsb_map, IH. reflexivity.
Qed.

Lemma filter_list_prod {A B : Type} (f : A * B -> bool) (l : list A)
    (l' : list B) :
  filter f (list_prod l l')
  = flat_map
      (fun x => flat_map (fun y => if f (x, y) then [(x, y)] else []) l') l.
Proof.
  induction l as [|x l IH]; simpl; [reflexivity|].
  rewrite filter_app, IH. f_equal.
  clear. induction l' as [|y l' IH]; simpl; [reflexivity|].
  rewrite IH. destruct (f (x, y)); reflexivity.
Qed.

(** [np.any] and [np.nonzero] of a mask given by its values. *)
Lemma np_any_build2 dt n m f :
  np_any (build2 dt n m f)
  = existsb (fun p => negb (f (fst p) (snd p) =? 0)%Z) (scan_order n m).
Proof.
  unfold np_any, build2, scan_order. simpl.
  rewrite existsb_flat_map, existsb_list_prod.
  apply existsb_ext_in. intros i _. rewrite existsb_map. reflexivity.
Qed.

Lemma nonzero_pairs_build2 dt n m f :
  nonzero_pairs (build2 dt n m f)
  = filter (fun p => negb (f (fst p) (snd p) =? 0)%Z) (scan_order n m).
Proof.
  unfold scan_order. rewrite filter_list_prod.
  unfold nonzero_pairs. simpl.
  apply flat_map_ext_in. intros i Hi. apply in_seq in Hi.
  apply flat_map_ext_in. intros j Hj. apply in_seq in Hj.
  rewrite get2_build2 by lia. simpl.
  destruct (f i j =? 0)%Z; reflexivity.
Qed.

Lemma np_any_flags dt n m (flag : nat -> nat -> bool) :
  np_any (build2 dt n m (fun i j => if flag i j then 1%Z else 0%Z))
  = existsb (fun p => flag (fst p) (snd p)) (scan_order n m).
Proof.
  rewrite np_any_build2. apply existsb_ext_in. intros [i j] _. simpl.
  destruct (flag i j); reflexivity.
Qed.

Lemma nonzero_pairs_flags dt n m (flag : nat -> nat -> bool) :
  nonzero_pairs (build2 dt n m (fun i j => if flag i j then 1%Z else 0%Z))
  = filter (fun p => flag (fst p) (snd p)) (scan_order n m).
Proof.
  rewrite nonzero_pairs_build2. apply filter_ext. intros [i j]. simpl.
  destruct (flag i j); reflexivity.
Qed.

Lemma split_maps {A B : Type} (l : list (A * B)) :
  split l = (map fst l, map snd l).
Proof.
  induction l as [|[x y] l IH]; simpl; [reflexivity|].
  rewrite IH. reflexivity.
Qed.

Lemma in_scan_order n m i j : In (i, j) (scan_order n m) <-> i < n /\ j < m.
Proof.
  unfold scan_order. rewrite in_prod_iff, !in_seq. lia.
Qed.

(** The mask of [check_biallelic]. *)
Lemma strands_eq (a : ndarray) n m c :
  arr_shape a = Sh3 n m c ->
  strands a = Ok (build3 (arr_dtype a) n m (Nat.min 2 c) (get3 a)).
Proof.
  intros Hs. unfold strands. rewrite Hs. reflexivity.
Qed.

Lemma multiallelic_mask (a : ndarray) n m c :
  arr_shape a = Sh3 n m c ->
  any_axis2 (gt1 (build3 (arr_dtype a) n m (Nat.min 2 c) (get3 a)))
  = Ok (build2 bool_ n m
          (fun i j => if multiallelic_at a i j then 1%Z else 0%Z)).
Proof.
  intros Hs. unfold gt1. cbn [arr_shape build3].
  rewrite map_build3. unfold any_axis2. cbn [arr_shape build3].
  f_equal. apply build2_ext. intros i j Hi Hj.
  unfold multiallelic_at, channels. rewrite Hs.
  erewrite existsb_ext_in; [reflexivity|].
  intros k Hk. apply in_seq in Hk.
  rewrite get3_build3 by lia.
  destruct (1 <? get3 a i j k)%Z; reflexivity.
Qed.

(** The mask of [check_phase]. *)
Lemma channel_eq (a : ndarray) n m c k :
  arr_shape a = Sh3 n m c -> k < c ->
  channel a k = Ok (build2 (arr_dtype a) n m (fun i j => get3 a i j k)).
Proof.
  intros Hs Hk. unfold channel. rewrite Hs.
  apply Nat.leb_gt in Hk. rewrite Hk. reflexivity.
Qed.

Lemma unphased_mask dt n m (f0 f1 f2 : nat -> nat -> Z) :
  np_and (np_xor (build2 dt n m f0) (build2 dt n m f1))
    (np_invert (build2 dt n m f2))
  = build2 dt n m
      (fun i j => Z.land (Z.lxor (f0 i j) (f1 i j)) (invert dt (f2 i j))).
Proof.
  unfold np_invert. cbn [arr_shape arr_dtype build2].
  rewrite map_build2.
  unfold np_and, np_xor, pointwise2. cbn [arr_shape arr_dtype build2].
  apply build2_ext. intros i j Hi Hj.
  rewrite !get2_build2 by assumption. reflexivity.
Qed.

(** The array operations stay folded while a method is run. *)
Arguments build2 : simpl never.
Arguments build3 : simpl never.
Arguments strands : simpl never.
Arguments channel : simpl never.
Arguments gt1 : simpl never.
Arguments any_axis2 : simpl never.
Arguments np_any : simpl never.
Arguments nonzero_pairs : simpl never.
Arguments np_nonzero : simpl never.
Arguments np_delete_axis1 : simpl never.
Arguments np_delete_variants : simpl never.
Arguments astype_bool : simpl never.
Arguments np_xor : simpl never.
Arguments np_and : simpl never.
Arguments np_invert : simpl never.
Arguments flip_columns : simpl never.
Arguments transpose_102 : simpl never.
Arguments np_array_uint8 : simpl never.
Arguments Nat.min : simpl never.

(** ** Running a method

    [run] unfolds the monad so that a method applied to an object reduces to
    the case analysis the Python code performs. *)
Ltac run :=
  unfold Data_read, data_attr, data_item in *;
  unfold bind, ret, raise, lift, get, set_data, set_samples, set_variants,
    warning in *; simpl in *.

Ltac split_match :=
  match goal with
  | H : context [match ?x with _ => _ end] |- _ => destruct x eqn:?; simpl in H
  | |- context [match ?x with _ => _ end] => destruct x eqn:?; simpl
  end.

Ltac same_state :=
  repeat match goal with
         | H : (_, _) = (_, _) |- _ => inversion H; clear H; subst
         | H : Ok _ = Ok _ |- _ => inversion H; clear H; subst
         end;
  try discriminate; simpl; auto.

(** ** C2: the PLINK loader *)

(** C2. [GenotypesPLINK.read] never completes: whatever the source, it raises
    the [TypeError] of [None - 0] at the computation of [variant_ct], before
    the reader is opened, and assigns neither samples, variants nor the
    tensor. *)
Theorem GenotypesPLINK_read_raises
    (open_pgen : string -> PgenReader) (region : option string)
    (sample_list : option (list string)) (self : Genotypes) :
  exists self',
    GenotypesPLINK_read open_pgen region sample_list self
      = (Raise (TypeError "unsupported operand type(s) for -"), self')
    /\ data self' = data self
    /\ samples self' = samples self
    /\ variants self' = variants self.
Proof.
  unfold GenotypesPLINK_read. run.
  destruct (data self) eqn:E; simpl; eexists; repeat split; simpl; auto.
Qed.

(** ** C5: a failing validation step leaves the object as it was *)

Lemma check_biallelic_raise_same (g g' : Genotypes) (e : exn) :
  check_biallelic false g = (Raise e, g') -> g' = g.
Proof.
  unfold check_biallelic. run. intros H.
  repeat (split_match; same_state).
Qed.

Lemma check_phase_raise_same (g g' : Genotypes) (e : exn) :
  check_phase g = (Raise e, g') -> g' = g.
Proof.
  unfold check_phase. run. intros H.
  repeat (split_match; same_state).
Qed.

(** C5. When [check_biallelic] (without discarding) or [check_phase] raises,
    the tensor, the samples and the variants are what they were before the
    call. *)
Theorem failed_check_keeps_matrix (g g' : Genotypes) (e : exn) :
  check_biallelic false g = (Raise e, g') \/ check_phase g = (Raise e, g') ->
  data g' = data g /\ samples g' = samples g /\ variants g' = variants g.
Proof.
  intros [H | H];
    [apply check_biallelic_raise_same in H | apply check_phase_raise_same in H];
    subst g'; repeat split.
Qed.

Lemma failed_check_keeps_matrix_witness :
  check_phase loaded_unphased
    = (Raise (ValueError (Unphased "1:10116:A:G" "1" 10116 "HG00097")),
       loaded_unphased)
  /\ data loaded_unphased = data loaded_unphased
  /\ samples loaded_unphased = samples loaded_unphased
  /\ variants loaded_unphased = variants loaded_unphased.
Proof.
  assert (H : check_phase loaded_unphased
    = (Raise (ValueError (Unphased "1:10116:A:G" "1" 10116 "HG00097")),
       loaded_unphased)) by (vm_compute; reflexivity).
  split; [exact H|].
  apply (failed_check_keeps_matrix loaded_unphased loaded_unphased
           (ValueError (Unphased "1:10116:A:G" "1" 10116 "HG00097"))).
  right. exact H.
Defined.

(** ** C10: a completed step only warns when called again *)

Lemma check_biallelic_narrows (b : bool) (g g1 : Genotypes) :
  check_biallelic b g = (Ok tt, g1) ->
  exists a, data g1 = DArray a /\ arr_dtype a = bool_.
Proof.
  unfold check_biallelic. run. intros H.
  repeat (split_match; same_state); eauto.
  all: try (eexists; split; [eassumption|]).
  all: try (destruct (arr_dtype _); simpl in *; congruence).
Qed.

Lemma check_biallelic_again (b : bool) (g : Genotypes) (a : ndarray) :
  data g = DArray a -> arr_dtype a = bool_ ->
  check_biallelic b g = (Ok tt, warned "All genotypes are already biallelic" g).
Proof.
  intros Hd Ht. unfold check_biallelic. run. rewrite Hd. simpl.
  rewrite Ht. reflexivity.
Qed.

Lemma check_phase_drops (g g1 : Genotypes) :
  check_phase g = (Ok tt, g1) ->
  exists a n m c, data g1 = DArray a /\ arr_shape a = Sh3 n m c /\ c < 3.
Proof.
  unfold check_phase, shape_2, strands. run. intros H.
  repeat (split_match; same_state).
  all: try (do 4 eexists; split; [eassumption|]; split; [eassumption|];
            apply Nat.ltb_lt; assumption).
  all: do 4 eexists; split; [reflexivity|]; split; [reflexivity|]; lia.
Qed.

Lemma check_phase_again (g : Genotypes) (a : ndarray) (n m c : nat) :
  data g = DArray a -> arr_shape a = Sh3 n m c -> c < 3 ->
  check_phase g
    = (Ok tt,
       warned "Phase information has already been removed from the data" g).
Proof.
  intros Hd Hs Hc. unfold check_phase, shape_2. run. rewrite Hd. simpl.
  rewrite Hs. simpl. apply Nat.ltb_lt in Hc. rewrite Hc. reflexivity.
Qed.

Lemma to_MAC_relabels (g g1 : Genotypes) :
  to_MAC g = (Ok tt, g1) -> exists rows, variants g1 = Structured "maf" rows.
Proof.
  unfold to_MAC. run. intros H.
  repeat (split_match; same_state); eauto.
  apply String.eqb_eq in Heqb. subst. eauto.
Qed.

Lemma to_MAC_again (g : Genotypes) (rows : list variant_rec) :
  variants g = Structured "maf" rows ->
  to_MAC g = (Ok tt, warned maf_warning g).
Proof.
  intros Hv. unfold to_MAC. run. rewrite Hv. reflexivity.
Qed.

(** C10. After [check_biallelic], [check_phase] or [to_MAC] has returned
    normally, the same call once more returns normally, logs exactly one
    warning and leaves tensor, samples and variants untouched. *)
Theorem second_call_only_warns (op : M unit) (g g1 : Genotypes) :
  (exists b, op = check_biallelic b) \/ op = check_phase \/ op = to_MAC ->
  op g = (Ok tt, g1) ->
  exists w g2,
    op g1 = (Ok tt, g2)
    /\ log g2 = log g1 ++ [w]
    /\ data g2 = data g1
    /\ samples g2 = samples g1
    /\ variants g2 = variants g1.
Proof.
  intros [[b Hop] | [Hop | Hop]] H; subst op.
  - destruct (check_biallelic_narrows _ _ _ H) as (a & Hd & Ht).
    do 2 eexists. split; [apply (check_biallelic_again b g1 a Hd Ht)|].
    repeat split.
  - destruct (check_phase_drops _ _ H) as (a & n & m & c & Hd & Hs & Hc).
    do 2 eexists. split; [apply (check_phase_again g1 a n m c Hd Hs Hc)|].
    repeat split.
  - destruct (to_MAC_relabels _ _ H) as (rows & Hv).
    do 2 eexists. split; [apply (to_MAC_again g1 rows Hv)|].
    repeat split.
Qed.

(** ** C6: recoding to minor-allele counts *)

(** binary64 comparison: [x <= y] excludes [y < x]. *)
Lemma SFleb_not_SFltb (x y : spec_float) :
  SFleb x y = true -> SFltb y x = false.
Proof.
  unfold SFleb, SFltb.
  destruct x as [sx | sx | | sx mx ex], y as [sy | sy | | sy my ey];
    simpl; try destruct sx; try destruct sy; simpl;
    try discriminate; try reflexivity.
  - rewrite (Z.compare_antisym ex ey).
    change (PosDef.Pos.compare_cont Eq my mx) with (Pos.compare my mx).
    change (PosDef.Pos.compare_cont Eq mx my) with (Pos.compare mx my).
    rewrite (Pos.compare_antisym mx my).
    destruct (ex ?= ey)%Z; simpl; try discriminate; try reflexivity.
    destruct (mx ?= my)%positive; simpl; try discriminate; reflexivity.
  - rewrite (Z.compare_antisym ex ey).
    change (PosDef.Pos.compare_cont Eq my mx) with (Pos.compare my mx).
    change (PosDef.Pos.compare_cont Eq mx my) with (Pos.compare mx my).
    rewrite (Pos.compare_antisym mx my).
    destruct (ex ?= ey)%Z; simpl; try discriminate; try reflexivity.
    destruct (mx ?= my)%positive; simpl; try discriminate; reflexivity.
Qed.

Lemma leb_not_ltb (x y : float) :
  (x <=? y)%float = true -> (y <? x)%float = false.
Proof.
  rewrite leb_spec, ltb_spec. apply SFleb_not_SFltb.
Qed.

Lemma nth_map_of_nth_error {A B : Type} (f : A -> B) (l : list A) (j : nat)
    (x : A) (d : B) :
  nth_error l j = Some x -> nth j (map f l) d = f x.
Proof.
  revert j. induction l as [|y l IH]; intros [|j] H; simpl in *;
    try discriminate.
  - inversion H. reflexivity.
  - apply IH. exact H.
Qed.

(** [~] is the complement at the width of the element type. *)
Lemma invert_is_complement (dt : dtype) (z : Z) :
  match dt with
  | bool_ => (0 <= z < 2)%Z -> invert dt z = (Z.lnot z mod 2)%Z
  | uint8 => (0 <= z < 256)%Z -> invert dt z = (Z.lnot z mod 256)%Z
  | int32 => invert dt z = Z.lnot z
  end.
Proof.
  destruct dt; simpl; try reflexivity; intros Hz; unfold Z.lnot.
  - assert (z = 0 \/ z = 1)%Z as [-> | ->] by lia; reflexivity.
  - replace (Z.pred (- z)) with ((255 - z) + (-1) * 256)%Z by lia.
    rewrite Z.mod_add by lia. rewrite Z.mod_small by lia. reflexivity.
Qed.

(** C6. On a matrix whose frequency field still is the alternate-allele
    frequency, [to_MAC] returns normally and, for every variant [j] with
    stored frequency [f]: if [f > 0.5], the stored frequency becomes [1 - f]
    and both strand values of every sample are complemented; if [f <= 0.5],
    the record and every genotype value of the variant stay as they were. *)
Theorem to_MAC_recodes (g : Genotypes) (a : ndarray)
    (rows : list variant_rec) (n m c : nat) :
  data g = DArray a ->
  arr_shape a = Sh3 n m c ->
  variants g = Structured "aaf" rows ->
  length rows = m ->
  exists g1 a1 rows1,
    to_MAC g = (Ok tt, g1)
    /\ data g1 = DArray a1
    /\ variants g1 = Structured "maf" rows1
    /\ samples g1 = samples g
    /\ arr_shape a1 = Sh3 n m c
    /\ length rows1 = m
    /\ forall j r,
         nth_error rows j = Some r ->
         exists r1,
           nth_error rows1 j = Some r1
           /\ ((0.5 <? v_freq r)%float = true ->
               v_freq r1 = (1 - v_freq r)%float
               /\ forall i k, i < n -> k < 2 -> k < c ->
                    get3 a1 i j k = invert (arr_dtype a) (get3 a i j k))
           /\ ((v_freq r <=? 0.5)%float = true ->
               r1 = r
               /\ forall i k, i < n -> k < c ->
                    get3 a1 i j k = get3 a i j k).
Proof.
  intros Hd Hs Hv Hlen.
  do 3 eexists.
  unfold to_MAC, flip_columns. run. rewrite Hv. simpl. rewrite Hd. simpl.
  rewrite Hs, length_map, Hlen, Nat.eqb_refl. simpl.
  split; [reflexivity|]. simpl.
  repeat (split; [reflexivity|]).
  split; [rewrite length_map; exact Hlen|].
  intros j r Hj.
  assert (Hjm : j < m).
  { rewrite <- Hlen. apply nth_error_Some. rewrite Hj. discriminate. }
  exists (recode_row r). split.
  { rewrite nth_error_map, Hj. reflexivity. }
  split.
  - intros Hf. split.
    + unfold recode_row. rewrite Hf. reflexivity.
    + intros i k Hi Hk2 Hk. rewrite get3_build3 by assumption.
      rewrite (nth_map_of_nth_error _ rows j r) by exact Hj.
      apply Nat.ltb_lt in Hk2. rewrite Hk2, Hf. reflexivity.
  - intros Hf. apply leb_not_ltb in Hf. split.
    + unfold recode_row. rewrite Hf. reflexivity.
    + intros i k Hi Hk. rewrite get3_build3 by assumption.
      rewrite (nth_map_of_nth_error _ rows j r) by exact Hj.
      rewrite Hf, andb_false_r. reflexivity.
Qed.

(** ** C7: discarding multiallelic variants *)

Lemma existsb_filter_nil {A : Type} (f : A -> bool) (l : list A) :
  existsb f l = match filter f l with [] => false | _ :: _ => true end.
Proof.
  induction l as [|x l IH]; simpl; [reflexivity|].
  destruct (f x); simpl; [reflexivity | exact IH].
Qed.

(** The columns listed by [np.nonzero] are the columns with a flagged
    entry. *)
Lemma listed_flagged (flag : nat -> nat -> bool) n m j :
  j < m ->
  listed (map snd (filter (fun p => flag (fst p) (snd p)) (scan_order n m))) j
  = existsb (fun i => flag i j) (seq 0 n).
Proof.
  intros Hj. apply eq_true_iff_eq. unfold listed.
  rewrite !existsb_exists. split.
  - intros (x & Hx & Hjx). apply Nat.eqb_eq in Hjx. subst x.
    apply in_map_iff in Hx. destruct Hx as ([i j'] & Hsnd & Hin).
    simpl in Hsnd. subst j'. apply filter_In in Hin.
    destruct Hin as [Hin Hf]. apply in_scan_order in Hin. simpl in Hf.
    exists i. split; [apply in_seq; lia | exact Hf].
  - intros (i & Hi & Hf). apply in_seq in Hi.
    exists j. split; [|apply Nat.eqb_refl].
    apply in_map_iff. exists (i, j). split; [reflexivity|].
    apply filter_In. split; [apply in_scan_order; lia | exact Hf].
Qed.

Lemma nonzero_columns_bound (flag : nat -> nat -> bool) n m w :
  m <= w ->
  existsb (fun j => w <=? j)
    (map snd (filter (fun p => flag (fst p) (snd p)) (scan_order n m)))
  = false.
Proof.
  intros Hw. apply not_true_iff_false. intros H.
  apply existsb_exists in H. destruct H as (j & Hj & Hle).
  apply Nat.leb_le in Hle.
  apply in_map_iff in Hj. destruct Hj as ([i j'] & Hsnd & Hin).
  simpl in Hsnd. subst j'. apply filter_In in Hin. destruct Hin as [Hin _].
  apply in_scan_order in Hin. lia.
Qed.

Lemma kept_ext (gone gone' : nat -> bool) m :
  (forall j, j < m -> gone j = gone' j) -> kept gone m = kept gone' m.
Proof.
  intros H. unfold kept. apply filter_ext_in. intros j Hj.
  apply in_seq in Hj. rewrite H by lia. reflexivity.
Qed.

Lemma remove_where_ext {A : Type} (gone gone' : nat -> bool) (l : list A) :
  (forall j, j < length l -> gone j = gone' j) ->
  remove_where gone l = remove_where gone' l.
Proof.
  intros H. unfold remove_where. f_equal. apply filter_ext_in.
  intros [j x] Hin. apply in_combine_l in Hin. apply in_seq in Hin.
  simpl. rewrite H by lia. reflexivity.
Qed.

(** What [np.delete] leaves of a list: its entries at the kept positions,
    in order. *)
Lemma remove_where_from {A : Type} (gone : nat -> bool) (l : list A) (s : nat) :
  map Some
    (map snd
       (filter (fun p => negb (gone (fst p))) (combine (seq s (length l)) l)))
  = map (fun j => nth_error l (j - s))
      (filter (fun j => negb (gone j)) (seq s (length l))).
Proof.
  revert s. induction l as [|x l IH]; intros s; simpl; [reflexivity|].
  assert (Htail :
    map (fun j => nth_error l (j - S s))
      (filter (fun j => negb (gone j)) (seq (S s) (length l)))
    = map (fun j => nth_error (x :: l) (j - s))
        (filter (fun j => negb (gone j)) (seq (S s) (length l)))).
  { apply map_ext_in. intros j Hj. apply filter_In in Hj.
    destruct Hj as [Hj _]. apply in_seq in Hj.
    replace (j - s) with (S (j - S s)) by lia. reflexivity. }
  destruct (gone s); simpl.
  - rewrite IH. exact Htail.
  - rewrite Nat.sub_diag. simpl. rewrite IH, Htail. reflexivity.
Qed.

Lemma remove_where_kept {A : Type} (gone : nat -> bool) (l : list A) :
  map Some (remove_where gone l) = map (nth_error l) (kept gone (length l)).
Proof.
  unfold remove_where, kept. rewrite remove_where_from.
  apply map_ext. intros j. rewrite Nat.sub_0_r. reflexivity.
Qed.

Lemma remove_where_length {A : Type} (gone : nat -> bool) (l : list A) :
  length (remove_where gone l) = length (kept gone (length l)).
Proof.
  rewrite <- (length_map Some), remove_where_kept, length_map. reflexivity.
Qed.

(** [step] runs a method as [run] does, leaving the array operations
    folded. *)
Ltac step :=
  unfold Data_read, data_attr, data_item in *;
  unfold bind, ret, raise, lift, get, set_data, set_samples, set_variants,
    warning in *; cbn in *.

Lemma dtype_eqb_bool_false dt : dt <> bool_ -> dtype_eqb dt bool_ = false.
Proof. destruct dt; simpl; congruence. Qed.

Lemma check_biallelic_discard_eq (g : Genotypes) (a : ndarray) (nm : string)
    (rows : list variant_rec) (n m c : nat) :
  data g = DArray a ->
  arr_dtype a <> bool_ ->
  arr_shape a = Sh3 n m c ->
  variants g = Structured nm rows ->
  length rows = m ->
  existsb (fun p => multiallelic_at a (fst p) (snd p)) (scan_order n m) = true ->
  check_biallelic true g
  = (Ok tt,
     mk_Genotypes (fname g) (log g)
       (DArray
          (build3 bool_ n (length (kept (multiallelic_col a n) m)) c
             (fun i t k =>
                truth (get3 a i (nth t (kept (multiallelic_col a n) m) 0) k))))
       (samples g)
       (Structured nm (remove_where (multiallelic_col a n) rows))).
Proof.
  intros Hd Ht Hs Hv Hlen Hany.
  unfold check_biallelic. step. rewrite Hd. cbn.
  rewrite (dtype_eqb_bool_false _ Ht), (strands_eq a n m c Hs). cbn.
  rewrite (multiallelic_mask a n m c Hs). cbn.
  rewrite np_any_flags, Hany.
  unfold np_nonzero. rewrite nonzero_pairs_flags, split_maps.
  unfold np_delete_axis1. rewrite Hs.
  rewrite nonzero_columns_bound by lia. cbn.
  rewrite Hv. unfold np_delete_variants. cbn.
  rewrite Hlen, nonzero_columns_bound by lia. cbn.
  rewrite (kept_ext _ (multiallelic_col a n) m)
    by (intros j Hj; apply listed_flagged; exact Hj).
  rewrite (remove_where_ext _ (multiallelic_col a n) rows)
    by (intros j Hj; apply listed_flagged; lia).
  rewrite astype_bool_build3. reflexivity.
Qed.

(** C7. On a matrix not yet narrowed that holds a value above 1 in a strand
    channel, [check_biallelic(discard_also=True)] returns normally; the
    variants that remain are exactly those without such a value, in their
    order, both in the tensor and in [variants]; the samples are untouched
    and the remaining data is boolean. *)
Theorem check_biallelic_discards (g : Genotypes) (a : ndarray) (nm : string)
    (rows : list variant_rec) (n m c : nat) :
  data g = DArray a ->
  arr_dtype a <> bool_ ->
  arr_shape a = Sh3 n m c ->
  variants g = Structured nm rows ->
  length rows = m ->
  (exists i j, i < n /\ j < m /\ multiallelic_at a i j = true) ->
  exists g1 a1 rows1,
    check_biallelic true g = (Ok tt, g1)
    /\ samples g1 = samples g
    /\ data g1 = DArray a1
    /\ variants g1 = Structured nm rows1
    /\ arr_dtype a1 = bool_
    /\ arr_shape a1
       = Sh3 n (length (filter (fun j => negb (multiallelic_col a n j))
                          (seq 0 m))) c
    /\ map Some rows1
       = map (nth_error rows)
           (filter (fun j => negb (multiallelic_col a n j)) (seq 0 m))
    /\ forall i t j k,
         i < n -> k < c ->
         nth_error (filter (fun j => negb (multiallelic_col a n j)) (seq 0 m)) t
           = Some j ->
         get3 a1 i t k = truth (get3 a i j k).
Proof.
  intros Hd Ht Hs Hv Hlen (i0 & j0 & Hi0 & Hj0 & Hbad).
  fold (kept (multiallelic_col a n) m).
  do 3 eexists.
  split.
  { apply (check_biallelic_discard_eq g a nm rows n m c); auto.
    apply existsb_exists. exists (i0, j0).
    split; [apply in_scan_order; lia | exact Hbad]. }
  cbn [samples data variants].
  repeat (split; [reflexivity|]).
  split.
  { rewrite remove_where_kept, Hlen. reflexivity. }
  intros i t j k Hi Hk Ht'.
  assert (Htl : t < length (kept (multiallelic_col a n) m)).
  { apply nth_error_Some. rewrite Ht'. discriminate. }
  rewrite get3_build3 by assumption.
  rewrite (nth_error_nth _ _ 0 Ht'). reflexivity.
Qed.

(** ** The two checks, case by case *)

Lemma find_filter {A : Type} (f : A -> bool) (l : list A) :
  find f l = match filter f l with [] => None | x :: _ => Some x end.
Proof.
  induction l as [|x l IH]; simpl; [reflexivity|].
  destruct (f x); simpl; [reflexivity | exact IH].
Qed.

Lemma first_flagged_filter (flag : nat -> nat -> bool) n m p :
  first_flagged flag n m = Some p ->
  exists rest,
    filter (fun q => flag (fst q) (snd q)) (scan_order n m) = p :: rest.
Proof.
  unfold first_flagged. rewrite find_filter.
  destruct (filter _ _) as [|x rest]; intros H; inversion H. eauto.
Qed.

Lemma check_biallelic_clean_eq (b : bool) (g : Genotypes) (a : ndarray)
    (n m c : nat) :
  data g = DArray a ->
  arr_dtype a <> bool_ ->
  arr_shape a = Sh3 n m c ->
  first_flagged (multiallelic_at a) n m = None ->
  check_biallelic b g
  = (Ok tt,
     mk_Genotypes (fname g) (log g) (DArray (astype_bool a)) (samples g)
       (variants g)).
Proof.
  intros Hd Ht Hs Hnone.
  unfold check_biallelic. step. rewrite Hd. cbn.
  rewrite (dtype_eqb_bool_false _ Ht), (strands_eq a n m c Hs). cbn.
  rewrite (multiallelic_mask a n m c Hs). cbn.
  rewrite np_any_flags, existsb_filter_nil.
  unfold first_flagged in Hnone. rewrite find_filter in Hnone.
  destruct (filter _ _); [|discriminate]. cbn. rewrite Hd. reflexivity.
Qed.

Lemma check_biallelic_report_eq (g : Genotypes) (a : ndarray)
    (n m c i j : nat) :
  data g = DArray a ->
  arr_dtype a <> bool_ ->
  arr_shape a = Sh3 n m c ->
  first_flagged (multiallelic_at a) n m = Some (i, j) ->
  check_biallelic false g = (report Multiallelic g i j, g).
Proof.
  intros Hd Ht Hs Hsome.
  destruct (first_flagged_filter _ _ _ _ Hsome) as [rest Hf].
  unfold check_biallelic, report. step. rewrite Hd. cbn.
  rewrite (dtype_eqb_bool_false _ Ht), (strands_eq a n m c Hs). cbn.
  rewrite (multiallelic_mask a n m c Hs). cbn.
  rewrite np_any_flags, existsb_filter_nil.
  unfold np_nonzero. rewrite nonzero_pairs_flags, split_maps, Hf. cbn.
  destruct (variants_item (variants g) j); cbn; [|reflexivity].
  destruct (item (samples g) i); reflexivity.
Qed.

Lemma check_phase_clean_eq (g : Genotypes) (a : ndarray) (n m c : nat) :
  data g = DArray a ->
  arr_shape a = Sh3 n m c ->
  3 <= c ->
  first_flagged (fun i j => negb (unphased_bits a i j =? 0)%Z) n m = None ->
  check_phase g
  = (Ok tt,
     mk_Genotypes (fname g) (log g)
       (DArray (build3 (arr_dtype a) n m 2 (get3 a))) (samples g)
       (variants g)).
Proof.
  intros Hd Hs Hc Hnone.
  assert (Hc3 : (c <? 3) = false) by (apply Nat.ltb_ge; exact Hc).
  unfold check_phase, shape_2.
  unfold data_attr, bind, ret, raise, lift, get, set_data.
  rewrite Hd, Hs, Hc3.
  rewrite !(channel_eq a n m c) by (auto; lia). cbn.
  rewrite unphased_mask. fold (unphased_bits a).
  rewrite np_any_build2, existsb_filter_nil.
  unfold first_flagged in Hnone. rewrite find_filter in Hnone.
  destruct (filter _ _); [|discriminate]. cbn.
  rewrite (strands_eq a n m c Hs). cbn.
  replace (Nat.min 2 c) with 2 by lia. reflexivity.
Qed.

Lemma check_phase_report_eq (g : Genotypes) (a : ndarray) (n m c i j : nat) :
  data g = DArray a ->
  arr_shape a = Sh3 n m c ->
  3 <= c ->
  first_flagged (fun i j => negb (unphased_bits a i j =? 0)%Z) n m
    = Some (i, j) ->
  check_phase g = (report Unphased g i j, g).
Proof.
  intros Hd Hs Hc Hsome.
  destruct (first_flagged_filter _ _ _ _ Hsome) as [rest Hf].
  assert (Hc3 : (c <? 3) = false) by (apply Nat.ltb_ge; exact Hc).
  unfold check_phase, shape_2, report.
  unfold data_attr, bind, ret, raise, lift, get, set_data.
  rewrite Hd, Hs, Hc3.
  rewrite !(channel_eq a n m c) by (auto; lia). cbn.
  rewrite unphased_mask. fold (unphased_bits a).
  rewrite np_any_build2, existsb_filter_nil.
  unfold np_nonzero. rewrite nonzero_pairs_build2, split_maps, Hf. cbn.
  destruct (variants_item (variants g) j); cbn; [|reflexivity].
  destruct (item (samples g) i); reflexivity.
Qed.

(** ** C8: the axes of the tensor agree with the metadata *)

Lemma dtype_eqb_eq (a b : dtype) : dtype_eqb a b = true <-> a = b.
Proof. destruct a, b; simpl; split; congruence. Qed.

Lemma first_flagged_in (flag : nat -> nat -> bool) n m i j :
  first_flagged flag n m = Some (i, j) -> i < n /\ j < m /\ flag i j = true.
Proof.
  unfold first_flagged. intros H. apply find_some in H.
  destruct H as [Hin Hf]. apply in_scan_order in Hin. simpl in Hf. tauto.
Qed.

Lemma check_biallelic_axes (b : bool) (g : Genotypes) :
  axes_agree g -> axes_agree (snd (check_biallelic b g)).
Proof.
  intros Hagree. pose proof Hagree as Hax. unfold axes_agree in Hax.
  destruct (data g) as [| |a] eqn:Hd; try contradiction.
  destruct (arr_shape a) as [| |n m c] eqn:Hs; try contradiction.
  destruct Hax as [Hn Hm].
  destruct (dtype_eqb (arr_dtype a) bool_) eqn:Hdt.
  { apply dtype_eqb_eq in Hdt.
    rewrite (check_biallelic_again b g a Hd Hdt).
    unfold axes_agree, warned. cbn. rewrite Hd, Hs. auto. }
  assert (Ht : arr_dtype a <> bool_).
  { intros E. apply dtype_eqb_eq in E. congruence. }
  destruct (first_flagged (multiallelic_at a) n m) as [[i j]|] eqn:Hff.
  2:{ rewrite (check_biallelic_clean_eq b g a n m c Hd Ht Hs Hff).
      unfold axes_agree. cbn. unfold astype_bool. cbn. rewrite Hs. auto. }
  destruct b.
  2:{ rewrite (check_biallelic_report_eq g a n m c i j Hd Ht Hs Hff).
      exact Hagree. }
  pose proof (first_flagged_in _ _ _ _ _ Hff) as (Hi & Hj & Hflag).
  destruct (variants g) as [|nm rows] eqn:Hv; simpl in Hm; [lia|].
  assert (Hany : existsb (fun p => multiallelic_at a (fst p) (snd p))
                   (scan_order n m) = true).
  { apply existsb_exists. exists (i, j).
    split; [apply in_scan_order; lia | exact Hflag]. }
  rewrite (check_biallelic_discard_eq g a nm rows n m c Hd Ht Hs Hv
             (eq_sym Hm) Hany).
  unfold axes_agree. cbn. split; [exact Hn|].
  rewrite remove_where_length, <- Hm. reflexivity.
Qed.

Lemma check_phase_axes (g : Genotypes) :
  axes_agree g -> axes_agree (snd (check_phase g)).
Proof.
  intros Hagree. pose proof Hagree as Hax. unfold axes_agree in Hax.
  destruct (data g) as [| |a] eqn:Hd; try contradiction.
  destruct (arr_shape a) as [| |n m c] eqn:Hs; try contradiction.
  destruct (Nat.ltb_spec c 3) as [Hc | Hc].
  { rewrite (check_phase_again g a n m c Hd Hs Hc).
    unfold axes_agree, warned. cbn. rewrite Hd, Hs. exact Hax. }
  destruct (first_flagged (fun i j => negb (unphased_bits a i j =? 0)%Z) n m)
    as [[i j]|] eqn:Hff.
  - rewrite (check_phase_report_eq g a n m c i j Hd Hs Hc Hff). exact Hagree.
  - rewrite (check_phase_clean_eq g a n m c Hd Hs Hc Hff).
    unfold axes_agree. cbn. exact Hax.
Qed.

Lemma to_MAC_axes (g : Genotypes) :
  axes_agree g -> axes_agree (snd (to_MAC g)).
Proof.
  intros Hagree. pose proof Hagree as Hax. unfold axes_agree in Hax.
  destruct (data g) as [| |a] eqn:Hd; try contradiction.
  destruct (arr_shape a) as [| |n m c] eqn:Hs; try contradiction.
  destruct Hax as [Hn Hm].
  unfold to_MAC. unfold bind, get, raise.
  destruct (variants g) as [|nm rows] eqn:Hv; [exact Hagree|].
  simpl in Hm.
  destruct (String.eqb nm "maf").
  { unfold axes_agree, warning. cbn. rewrite Hd, Hs, Hv. auto. }
  destruct (negb (String.eqb nm "aaf")); [exact Hagree|].
  unfold data_item, bind, get, ret, lift, set_data, set_variants.
  rewrite Hd. unfold flip_columns. rewrite Hs, length_map, <- Hm, Nat.eqb_refl.
  unfold axes_agree. cbn. rewrite length_map.
  unfold build3. cbn. auto.
Qed.

Lemma np_array_uint8_three (l : list (list (list Z))) (a : ndarray) p n c :
  np_array_uint8 l = Ok a ->
  arr_shape a = Sh3 p n c ->
  exists first rest call calls,
    l = first :: rest
    /\ first = call :: calls
    /\ p = length l /\ n = length first /\ c = length call
    /\ a = build3 uint8 p n c
             (fun j i k => (nth k (nth i (nth j l []) []) 0 mod 256)%Z).
Proof.
  unfold np_array_uint8. intros Ha Hs.
  destruct l as [|first rest]; [inversion Ha; subst; discriminate|].
  destruct (negb (same_length _ _)); [discriminate|].
  destruct first as [|call calls]; [inversion Ha; subst; discriminate|].
  destruct (negb (forallb _ _)); [discriminate|].
  inversion Ha; subst a. unfold build3 in Hs. cbn in Hs. inversion Hs.
  exists (call :: calls), rest, call, calls. repeat split.
Qed.

Lemma transpose_102_ok (a t : ndarray) :
  transpose_102 a = Ok t ->
  exists p n c,
    arr_shape a = Sh3 p n c
    /\ t = build3 (arr_dtype a) n p c (fun i j k => get3 a j i k).
Proof.
  unfold transpose_102. intros H.
  destruct (arr_shape a) as [| |p n c]; inversion H. eauto.
Qed.

(** A successful [read], spelled out. *)
Lemma read_ok (open_vcf : string -> option (list string) -> VCF)
    (region : option string) (sel : option (list string))
    (g g' : Genotypes) :
  read open_vcf region sel g = (Ok tt, g') ->
  let vcf := open_vcf (fname g) sel in
  let records := vcf_call vcf region in
  exists first rest call calls,
    records = first :: rest
    /\ genotypes first = call :: calls
    /\ samples g' = vcf_samples vcf
    /\ variants g' = Structured "aaf" (map variant_row records)
    /\ data g'
       = DArray
           (build3 uint8 (length (genotypes first)) (length records)
              (length call)
              (fun i j k =>
                 (nth k (nth i (nth j (map genotypes records) []) []) 0
                    mod 256)%Z)).
Proof.
  intros H vcf records.
  unfold read in H.
  unfold bind at 1 in H.
  destruct (Data_read g) as [r0 g0] eqn:E0.
  assert (Hg0 : r0 = Ok tt /\ fname g0 = fname g).
  { unfold Data_read, bind, get, ret, warning in E0.
    destruct (data g); inversion E0; auto. }
  destruct Hg0 as [-> Hf].
  unfold bind, get, lift, set_samples, set_data, set_variants in H.
  cbn [fname log data samples variants] in H.
  rewrite Hf in H. fold vcf in H. fold records in H.
  destruct (np_array_uint8 (map genotypes records)) as [a|] eqn:Ea;
    [|discriminate].
  destruct (transpose_102 a) as [t|] eqn:Et.
  2:{ destruct (shape_eqb _ _); unfold warning, ret in H; discriminate. }
  apply transpose_102_ok in Et. destruct Et as (p & n & c & Hs & ->).
  destruct (np_array_uint8_three _ _ _ _ _ Ea Hs)
    as (gfirst & grest & call & calls & Hl & Hgf & Hp & Hn & Hc & Ha).
  destruct records as [|first rest] eqn:Er; [discriminate|].
  cbn [map] in Hl. inversion Hl. subst gfirst grest.
  exists first, rest, call, calls.
  split; [reflexivity|]. split; [congruence|].
  assert (Hdata :
    build3 (arr_dtype a) n p c (fun i j k => get3 a j i k)
    = build3 uint8 (length (genotypes first)) (length (first :: rest))
        (length call)
        (fun i j k =>
           (nth k (nth i (nth j (map genotypes (first :: rest)) []) []) 0
              mod 256)%Z)).
  { rewrite Ha. cbn [arr_dtype build3].
    replace (length (genotypes first)) with n by congruence.
    rewrite <- Hc.
    replace (length (first :: rest)) with p
      by (rewrite Hp, length_map; reflexivity).
    apply build3_ext. intros i j k Hi Hj Hk.
    rewrite get3_build3 by assumption. reflexivity. }
  destruct (shape_eqb _ _); unfold warning, ret in H;
    inversion H; subst g'; cbn [samples variants data];
    rewrite Hdata; repeat split.
Qed.

(** C8. After a successful [read] from a reader that hands out one call per
    sample, and from then on after every call of [check_biallelic],
    [check_phase] or [to_MAC], whether it returned, only warned or raised,
    the sample axis of the tensor is as long as [samples] and its variant
    axis as long as [variants]. *)
Theorem axes_agree_always
    (open_vcf : string -> option (list string) -> VCF)
    (region : option string) (sel : option (list string))
    (g0 g : Genotypes) (steps : list (M unit)) :
  reader_consistent (open_vcf (fname g0) sel) ->
  read open_vcf region sel g0 = (Ok tt, g) ->
  Forall is_step steps ->
  axes_agree (after steps g).
Proof.
  intros Hcons Hread Hsteps.
  assert (Hg : axes_agree g).
  { destruct (read_ok _ _ _ _ _ Hread)
      as (first & rest & call & calls & Hr & Hg1 & Hsm & Hv & Hd).
    unfold axes_agree. rewrite Hd, Hsm, Hv. unfold build3. cbn.
    rewrite length_map. split; [|reflexivity].
    apply (Hcons region). rewrite Hr. left. reflexivity. }
  clear Hread. revert g Hg. unfold after.
  induction Hsteps as [|step steps Hstep _ IH]; intros g Hg; [exact Hg|].
  cbn. apply IH.
  destruct Hstep as [[b ->] | [-> | ->]].
  - apply check_biallelic_axes. exact Hg.
  - apply check_phase_axes. exact Hg.
  - apply to_MAC_axes. exact Hg.
Qed.

(** ** C9: which pair a failing check names *)

Lemma find_app {A : Type} (f : A -> bool) (l l' : list A) :
  find f (l ++ l')
  = match find f l with Some x => Some x | None => find f l' end.
Proof.
  induction l as [|x l IH]; simpl; [reflexivity|].
  destruct (f x); [reflexivity | exact IH].
Qed.

(** The first flagged entry of one row. *)
Lemma find_row_some (f : nat * nat -> bool) (s : nat) :
  forall m t i j,
    find f (map (pair s) (seq t m)) = Some (i, j) ->
    i = s /\ t <= j < t + m /\ f (s, j) = true
    /\ forall j', t <= j' < t + m -> f (s, j') = true -> j <= j'.
Proof.
  induction m as [|m IH]; intros t i j H; simpl in H; [discriminate|].
  destruct (f (s, t)) eqn:Hf.
  - inversion H; subst.
    split; [reflexivity|]. split; [lia|]. split; [exact Hf|]. intros; lia.
  - apply IH in H. destruct H as (Hi & Hj & Hfj & Hleast).
    split; [exact Hi|]. split; [lia|]. split; [exact Hfj|].
    intros j' Hj' Hf'.
    destruct (Nat.eq_dec j' t) as [-> | Hne]; [congruence|].
    apply Hleast; [lia | exact Hf'].
Qed.

Lemma find_row_none (f : nat * nat -> bool) (s : nat) :
  forall m t,
    find f (map (pair s) (seq t m)) = None ->
    forall j', t <= j' < t + m -> f (s, j') = false.
Proof.
  induction m as [|m IH]; intros t H j' Hj'; simpl in H; [lia|].
  destruct (f (s, t)) eqn:Hf; [discriminate|].
  destruct (Nat.eq_dec j' t) as [-> | Hne]; [exact Hf|].
  apply (IH (S t)); [exact H | lia].
Qed.

Lemma find_rows_least (f : nat * nat -> bool) (m : nat) :
  forall n s i j,
    find f (list_prod (seq s n) (seq 0 m)) = Some (i, j) ->
    s <= i
    /\ forall i' j', s <= i' < s + n -> j' < m -> f (i', j') = true ->
         i < i' \/ (i = i' /\ j <= j').
Proof.
  induction n as [|n IH]; intros s i j H; simpl in H; [discriminate|].
  rewrite find_app in H.
  destruct (find f (map (pair s) (seq 0 m))) as [[i0 j0]|] eqn:Hrow.
  - inversion H; subst i0 j0.
    apply find_row_some in Hrow. destruct Hrow as (-> & _ & _ & Hleast).
    split; [lia|]. intros i' j' Hi' Hj' Hf.
    destruct (Nat.eq_dec i' s) as [-> | Hne]; [|lia].
    right. split; [reflexivity|]. apply Hleast; [lia | exact Hf].
  - apply IH in H. destruct H as [Hsi Hleast]. split; [lia|].
    intros i' j' Hi' Hj' Hf.
    destruct (Nat.eq_dec i' s) as [-> | Hne].
    + rewrite (find_row_none f s m 0 Hrow j') in Hf by lia. discriminate.
    + apply Hleast; [lia | exact Hj' | exact Hf].
Qed.

(** [first_flagged] is the least flagged pair in sample-major order: no
    flagged pair has a smaller sample index, nor the same sample index and a
    smaller variant index. *)
Lemma first_flagged_least (flag : nat -> nat -> bool) n m i j :
  first_flagged flag n m = Some (i, j) ->
  i < n /\ j < m /\ flag i j = true
  /\ forall i' j', i' < n -> j' < m -> flag i' j' = true ->
       i < i' \/ (i = i' /\ j <= j').
Proof.
  intros H. pose proof (first_flagged_in _ _ _ _ _ H) as (Hi & Hj & Hf).
  split; [exact Hi|]. split; [exact Hj|]. split; [exact Hf|].
  unfold first_flagged, scan_order in H.
  apply find_rows_least in H. destruct H as [_ Hleast].
  intros i' j' Hi' Hj' Hf'. apply Hleast; [lia | exact Hj' | exact Hf'].
Qed.

Lemma item_raise {A : Type} (l : list A) (i : nat) (e : exn) :
  item l i = Raise e -> exists s, e = IndexError s.
Proof.
  unfold item. destruct (nth_error l i); intros H; inversion H. eauto.
Qed.

Lemma variants_item_raise (v : variants_arr) (i : nat) (e : exn) :
  variants_item v i = Raise e -> exists s, e = IndexError s.
Proof.
  destruct v; simpl; [|apply item_raise].
  intros H. inversion H. unfold out_of_bounds. eauto.
Qed.

Lemma report_names kind (g : Genotypes) (i j : nat) (m : message) :
  report kind g i j = Raise (ValueError m) ->
  exists r name,
    variants_item (variants g) j = Ok r
    /\ item (samples g) i = Ok name
    /\ m = kind (v_id r) (v_chrom r) (v_pos r) name.
Proof.
  unfold report. intros H.
  destruct (variants_item (variants g) j) as [r|e] eqn:Hr.
  2:{ apply variants_item_raise in Hr. destruct Hr as [s ->]. discriminate. }
  destruct (item (samples g) i) as [name|e] eqn:Hn.
  2:{ apply item_raise in Hn. destruct Hn as [s ->]. discriminate. }
  inversion H. eauto.
Qed.

(** The pair [check_biallelic] names is the first pair of the scan that holds
    a value above 1. *)
Lemma check_biallelic_names_first (g g' : Genotypes) (a : ndarray)
    (n m c : nat) (id chrom name : string) (pos : N) :
  data g = DArray a ->
  arr_shape a = Sh3 n m c ->
  check_biallelic false g
    = (Raise (ValueError (Multiallelic id chrom pos name)), g') ->
  exists i j r,
    first_flagged (multiallelic_at a) n m = Some (i, j)
    /\ variants_item (variants g) j = Ok r
    /\ (v_id r, v_chrom r, v_pos r) = (id, chrom, pos)
    /\ item (samples g) i = Ok name.
Proof.
  intros Hd Hs H.
  destruct (dtype_eqb (arr_dtype a) bool_) eqn:Hdt.
  { apply dtype_eqb_eq in Hdt.
    rewrite (check_biallelic_again false g a Hd Hdt) in H. discriminate. }
  assert (Ht : arr_dtype a <> bool_).
  { intros E. apply dtype_eqb_eq in E. congruence. }
  destruct (first_flagged (multiallelic_at a) n m) as [[i j]|] eqn:Hff.
  2:{ rewrite (check_biallelic_clean_eq false g a n m c Hd Ht Hs Hff) in H.
      discriminate. }
  rewrite (check_biallelic_report_eq g a n m c i j Hd Ht Hs Hff) in H.
  inversion H as [[Hrep Hg]].
  apply report_names in Hrep. destruct Hrep as (r & nm & Hr & Hn & Hm).
  inversion Hm; subst.
  exists i, j, r. repeat split; assumption.
Qed.

(** The pair [check_phase] names is the first pair of the scan whose
    expression value is not zero. *)
Lemma check_phase_names_first (g g' : Genotypes) (a : ndarray)
    (n m c : nat) (id chrom name : string) (pos : N) :
  data g = DArray a ->
  arr_shape a = Sh3 n m c ->
  check_phase g = (Raise (ValueError (Unphased id chrom pos name)), g') ->
  exists i j r,
    first_flagged (fun i j => negb (unphased_bits a i j =? 0)%Z) n m
      = Some (i, j)
    /\ variants_item (variants g) j = Ok r
    /\ (v_id r, v_chrom r, v_pos r) = (id, chrom, pos)
    /\ item (samples g) i = Ok name.
Proof.
  intros Hd Hs H.
  destruct (Nat.ltb_spec c 3) as [Hc | Hc].
  { rewrite (check_phase_again g a n m c Hd Hs Hc) in H. discriminate. }
  destruct (first_flagged (fun i j => negb (unphased_bits a i j =? 0)%Z) n m)
    as [[i j]|] eqn:Hff.
  2:{ rewrite (check_phase_clean_eq g a n m c Hd Hs Hc Hff) in H.
      discriminate. }
  rewrite (check_phase_report_eq g a n m c i j Hd Hs Hc Hff) in H.
  inversion H as [[Hrep Hg]].
  apply report_names in Hrep. destruct Hrep as (r & nm & Hr & Hn & Hm).
  inversion Hm; subst.
  exists i, j, r. repeat split; assumption.
Qed.

(** C9. On the tensor [[2, 0, 1], [0, 1, 0]] of one sample and two variants
    ([np.uint8], not narrowed), the first heterozygous and unphased call in
    scan order is the one at variant 1, but [check_phase] names variant 0
    ([rs1]), whose call [2|0] is phased. *)
Theorem check_phase_names_phased_call :
  tensor two_calls = mk_ndarray uint8 (Sh3 1 2 3) [2; 0; 1; 0; 1; 0]%Z
  /\ first_flagged (heterozygous_unphased (tensor two_calls)) 1 2
     = Some (0, 1)
  /\ variants_item (variants two_calls) 0
     = Ok (mk_variant_rec "rs1" "1" 100 0.5)
  /\ check_phase two_calls
     = (Raise (ValueError (Unphased "rs1" "1" 100 "S1")), two_calls).
Proof.
  repeat split; vm_compute; reflexivity.
Qed.

(** ** C1: what [check_phase] flags *)

(** On strand values and phase flags that are 0 or 1 the expression of
    [check_phase] is nonzero exactly for a heterozygous and unphased call,
    whatever the element type. *)
Lemma unphased_bits_narrow (a : ndarray) (i j : nat) :
  (0 <= get3 a i j 0 <= 1)%Z ->
  (0 <= get3 a i j 1 <= 1)%Z ->
  (0 <= get3 a i j 2 <= 1)%Z ->
  negb (unphased_bits a i j =? 0)%Z = heterozygous_unphased a i j.
Proof.
  unfold unphased_bits, heterozygous_unphased. intros H0 H1 H2.
  assert (E0 : (get3 a i j 0 = 0 \/ get3 a i j 0 = 1)%Z) by lia.
  assert (E1 : (get3 a i j 1 = 0 \/ get3 a i j 1 = 1)%Z) by lia.
  assert (E2 : (get3 a i j 2 = 0 \/ get3 a i j 2 = 1)%Z) by lia.
  destruct E0 as [E0 | E0]; destruct E1 as [E1 | E1];
    destruct E2 as [E2 | E2]; rewrite E0, E1, E2;
    destruct (arr_dtype a); reflexivity.
Qed.

(** C1. On the [np.uint8] tensor [[2, 0, 1]] (one sample, one variant, the
    phased call [2|0]) no call is heterozygous and unphased, yet
    [check_phase] raises its [ValueError]: [2 ^ 0 = 2] and [~1 = 254] have a
    bit in common. *)
Theorem check_phase_flags_phased_call :
  tensor third_allele = mk_ndarray uint8 (Sh3 1 1 3) [2; 0; 1]%Z
  /\ heterozygous_unphased (tensor third_allele) 0 0 = false
  /\ unphased_bits (tensor third_allele) 0 0 = 2%Z
  /\ check_phase third_allele
     = (Raise (ValueError (Unphased "rs1" "1" 100 "S1")), third_allele).
Proof.
  repeat split; vm_compute; reflexivity.
Qed.

(** ** C3: an empty result *)

(** C3. When the reader yields no record for the selection, [read] raises
    the [ValueError] of the transposition of a one-axis array; the warning
    about an empty result is not logged, since the shape of the empty array
    is [(0,)] and not [(0, 0, 0)]. *)
Theorem read_empty_raises
    (open_vcf : string -> option (list string) -> VCF)
    (region : option string) (sel : option (list string)) (g : Genotypes) :
  vcf_call (open_vcf (fname g) sel) region = [] ->
  exists g',
    read open_vcf region sel g
      = (Raise (ValueError (Text "axes don't match array")), g')
    /\ log g' = log (snd (Data_read g))
    /\ data g' = DArray (mk_ndarray uint8 (Sh1 0) [])
    /\ samples g' = vcf_samples (open_vcf (fname g) sel)
    /\ variants g' = Structured "aaf" [].
Proof.
  intros Hnone. unfold read.
  unfold bind at 1.
  destruct (Data_read g) as [r0 g0] eqn:E0.
  assert (Hg0 : r0 = Ok tt /\ fname g0 = fname g).
  { unfold Data_read, bind, get, ret, warning in E0.
    destruct (data g); inversion E0; auto. }
  destruct Hg0 as [-> Hf].
  unfold bind, get, lift, set_samples, set_data, set_variants.
  cbn [fname log data samples variants].
  rewrite Hf, Hnone. cbn.
  eexists. split; [reflexivity|]. cbn. repeat split.
Qed.

Lemma read_empty_raises_witness :
  vcf_call (simple_vcf "simple.vcf" None) (Some "chr1:10115-10117"%string) = []
  /\ exists g',
       read simple_vcf (Some "chr1:10115-10117"%string) None
         (Genotypes_init "simple.vcf")
       = (Raise (ValueError (Text "axes don't match array")), g')
       /\ log g' = log (snd (Data_read (Genotypes_init "simple.vcf")))
       /\ data g' = DArray (mk_ndarray uint8 (Sh1 0) [])
       /\ samples g' = vcf_samples (simple_vcf "simple.vcf" None)
       /\ variants g' = Structured "aaf" [].
Proof.
  split; [reflexivity|].
  apply (read_empty_raises simple_vcf (Some "chr1:10115-10117"%string) None
           (Genotypes_init "simple.vcf")).
  reflexivity.
Defined.

(** ** C4: the order of the samples *)

(** C4 (counterexample). With a reader that keeps the header order of the
    selected samples, the sample list [HG00100, HG00097] does not come back
    as [samples]: the object holds [HG00097, HG00100]. *)
Lemma read_samples_not_caller_order :
  exists g',
    read simple_vcf None (Some ["HG00100"; "HG00097"]%string)
      (Genotypes_init "simple.vcf")
    = (Ok tt, g')
    /\ samples g' = ["HG00097"; "HG00100"]%string
    /\ samples g' <> ["HG00100"; "HG00097"]%string.
Proof.
  eexists. split; [vm_compute; reflexivity|].
  split; [reflexivity|]. cbn. discriminate.
Qed.

(** C4 (amended). After a successful [read] with an explicit sample list,
    [samples] is the sample sequence the reader reports for that selection,
    in the reader's order, and the sample axis of the tensor follows it: row
    [i] of variant [j] holds the [i]-th call of the reader's [j]-th record
    (stored modulo 256). *)
Theorem read_keeps_reader_order
    (open_vcf : string -> option (list string) -> VCF)
    (region : option string) (sample_list : list string)
    (g g' : Genotypes) :
  read open_vcf region (Some sample_list) g = (Ok tt, g') ->
  samples g' = vcf_samples (open_vcf (fname g) (Some sample_list))
  /\ exists a n m c,
       data g' = DArray a
       /\ arr_shape a = Sh3 n m c
       /\ forall i j k v call,
            nth_error
              (vcf_call (open_vcf (fname g) (Some sample_list)) region) j
              = Some v ->
            nth_error (genotypes v) i = Some call ->
            i < n -> k < c ->
            get3 a i j k = (nth k call 0 mod 256)%Z.
Proof.
  intros H.
  destruct (read_ok _ _ _ _ _ H)
    as (first & rest & call0 & calls & Hr & Hg1 & Hsm & Hv & Hd).
  split; [exact Hsm|].
  do 4 eexists. split; [exact Hd|]. split; [reflexivity|].
  intros i j k v call Hj Hi Hin Hk.
  assert (Hjm : j < length
            (vcf_call (open_vcf (fname g) (Some sample_list)) region)).
  { apply nth_error_Some. rewrite Hj. discriminate. }
  rewrite get3_build3 by assumption.
  rewrite (nth_map_of_nth_error genotypes _ j v) by exact Hj.
  rewrite (nth_error_nth _ _ [] Hi). reflexivity.
Qed.

Lemma read_keeps_reader_order_witness :
  read simple_vcf None (Some ["HG00100"; "HG00097"]%string)
    (Genotypes_init "simple.vcf")
  = (Ok tt,
     snd (read simple_vcf None (Some ["HG00100"; "HG00097"]%string)
            (Genotypes_init "simple.vcf")))
  /\ samples
       (snd (read simple_vcf None (Some ["HG00100"; "HG00097"]%string)
               (Genotypes_init "simple.vcf")))
     = vcf_samples
         (simple_vcf "simple.vcf" (Some ["HG00100"; "HG00097"]%string)).
Proof.
  assert (H : read simple_vcf None (Some ["HG00100"; "HG00097"]%string)
                (Genotypes_init "simple.vcf")
              = (Ok tt,
                 snd (read simple_vcf None
                        (Some ["HG00100"; "HG00097"]%string)
                        (Genotypes_init "simple.vcf"))))
    by (vm_compute; reflexivity).
  split; [exact H|].
  exact (proj1 (read_keeps_reader_order simple_vcf None
                  ["HG00100"; "HG00097"]%string
                  (Genotypes_init "simple.vcf") _ H)).
Defined.

(** ** The statements at the test fixture *)

Lemma to_MAC_recodes_witness :
  (data checked = DArray (tensor checked)
   /\ arr_shape (tensor checked) = Sh3 5 4 2
   /\ variants checked = Structured "aaf" simple_rows
   /\ length simple_rows = 4)
  /\ exists g1 a1 rows1 r1,
       to_MAC checked = (Ok tt, g1)
       /\ data g1 = DArray a1
       /\ variants g1 = Structured "maf" rows1
       /\ nth_error rows1 1 = Some r1
       /\ v_freq r1 = (1 - 0.6)%float
       /\ forall i k, i < 5 -> k < 2 ->
            get3 a1 i 1 k
            = invert (arr_dtype (tensor checked)) (get3 (tensor checked) i 1 k).
Proof.
  assert (H1 : data checked = DArray (tensor checked)) by reflexivity.
  assert (H2 : arr_shape (tensor checked) = Sh3 5 4 2) by reflexivity.
  assert (H3 : variants checked = Structured "aaf" simple_rows)
    by reflexivity.
  assert (H4 : length simple_rows = 4) by reflexivity.
  split; [repeat split; assumption|].
  destruct (to_MAC_recodes checked (tensor checked) simple_rows 5 4 2
              H1 H2 H3 H4)
    as (g1 & a1 & rows1 & Hrun & Hd & Hv & _ & _ & _ & Hall).
  destruct (Hall 1 (mk_variant_rec "1:10116:A:G" "1" 10116 0.6) eq_refl)
    as (r1 & Hr1 & Hflip & _).
  destruct (Hflip eq_refl) as [Hfreq Hdata].
  exists g1, a1, rows1, r1.
  repeat (split; [assumption|]).
  intros i k Hi Hk. apply Hdata; assumption.
Defined.

Lemma check_biallelic_discards_witness :
  (data loaded_multiallelic = DArray (tensor loaded_multiallelic)
   /\ arr_dtype (tensor loaded_multiallelic) <> bool_
   /\ arr_shape (tensor loaded_multiallelic) = Sh3 5 4 3
   /\ variants loaded_multiallelic = Structured "aaf" simple_rows
   /\ length simple_rows = 4
   /\ multiallelic_at (tensor loaded_multiallelic) 1 1 = true)
  /\ exists g1 a1 rows1,
       check_biallelic true loaded_multiallelic = (Ok tt, g1)
       /\ samples g1 = simple_samples
       /\ data g1 = DArray a1
       /\ variants g1 = Structured "aaf" rows1
       /\ arr_shape a1 = Sh3 5 3 3
       /\ map Some rows1 = map (nth_error simple_rows) [0; 2; 3].
Proof.
  assert (H1 : data loaded_multiallelic
               = DArray (tensor loaded_multiallelic)) by reflexivity.
  assert (H2 : arr_dtype (tensor loaded_multiallelic) <> bool_)
    by (vm_compute; discriminate).
  assert (H3 : arr_shape (tensor loaded_multiallelic) = Sh3 5 4 3)
    by reflexivity.
  assert (H4 : variants loaded_multiallelic = Structured "aaf" simple_rows)
    by reflexivity.
  assert (H5 : length simple_rows = 4) by reflexivity.
  assert (H6 : multiallelic_at (tensor loaded_multiallelic) 1 1 = true)
    by (vm_compute; reflexivity).
  split; [repeat split; assumption|].
  destruct (check_biallelic_discards loaded_multiallelic
              (tensor loaded_multiallelic) "aaf" simple_rows 5 4 3
              H1 H2 H3 H4 H5)
    as (g1 & a1 & rows1 & Hrun & Hsm & Hd & Hv & _ & Hsh & Hrows & _).
  { exists 1, 1. split; [lia|]. split; [lia | exact H6]. }
  assert (Hkeep :
    filter (fun j => negb (multiallelic_col (tensor loaded_multiallelic) 5 j))
      (seq 0 4) = [0; 2; 3]) by (vm_compute; reflexivity).
  rewrite Hkeep in Hsh, Hrows.
  exists g1, a1, rows1.
  split; [exact Hrun|]. split; [exact Hsm|]. split; [exact Hd|].
  split; [exact Hv|]. split; [exact Hsh | exact Hrows].
Defined.

Lemma simple_vcf_consistent (path : string) :
  reader_consistent (simple_vcf path None).
Proof.
  intros region v Hin. cbn in Hin.
  apply in_map_iff in Hin. destruct Hin as (x & <- & Hx).
  assert (Hrec : In x simple_records).
  { destruct region as [r|]; unfold in_region in Hx; [|exact Hx].
    destruct (String.eqb r "1:10115-10117"); [|contradiction].
    apply filter_In in Hx. tauto. }
  cbn in Hrec. intuition subst; reflexivity.
Qed.

Lemma axes_agree_always_witness :
  (reader_consistent (simple_vcf (fname (Genotypes_init "simple.vcf")) None)
   /\ read simple_vcf None None (Genotypes_init "simple.vcf") = (Ok tt, loaded)
   /\ Forall is_step [check_biallelic true; check_phase; to_MAC])
  /\ axes_agree (after [check_biallelic true; check_phase; to_MAC] loaded).
Proof.
  assert (H1 : reader_consistent
                 (simple_vcf (fname (Genotypes_init "simple.vcf")) None))
    by apply simple_vcf_consistent.
  assert (H2 : read simple_vcf None None (Genotypes_init "simple.vcf")
               = (Ok tt, loaded)) by (vm_compute; reflexivity).
  assert (H3 : Forall is_step [check_biallelic true; check_phase; to_MAC]).
  { constructor; [left; exists true; reflexivity|].
    constructor; [right; left; reflexivity|].
    constructor; [right; right; reflexivity|]. constructor. }
  split; [repeat split; assumption|].
  exact (axes_agree_always simple_vcf None None (Genotypes_init "simple.vcf")
           loaded _ H1 H2 H3).
Defined.

Lemma second_call_only_warns_witness :
  ((exists b, check_phase = check_biallelic b) \/ check_phase = check_phase
     \/ check_phase = to_MAC)
  /\ check_phase loaded = (Ok tt, phase_dropped)
  /\ exists w g2,
       check_phase phase_dropped = (Ok tt, g2)
       /\ log g2 = log phase_dropped ++ [w]
       /\ data g2 = data phase_dropped
       /\ samples g2 = samples phase_dropped
       /\ variants g2 = variants phase_dropped.
Proof.
  assert (H1 : (exists b, check_phase = check_biallelic b)
               \/ check_phase = check_phase \/ check_phase = to_MAC)
    by (right; left; reflexivity).
  assert (H2 : check_phase loaded = (Ok tt, phase_dropped))
    by (vm_compute; reflexivity).
  split; [exact H1|]. split; [exact H2|].
  exact (second_call_only_warns check_phase loaded phase_dropped H1 H2).
Defined.

(** ** [check_phase] on values that are 0 or 1 *)

Lemma find_ext_in {A : Type} (f f' : A -> bool) (l : list A) :
  (forall x, In x l -> f x = f' x) -> find f l = find f' l.
Proof.
  induction l as [|x l IH]; intros H; simpl; [reflexivity|].
  rewrite H by (left; reflexivity).
  rewrite IH by (intros y Hy; apply H; right; exact Hy).
  reflexivity.
Qed.

Lemma first_flagged_ext (flag flag' : nat -> nat -> bool) n m :
  (forall i j, i < n -> j < m -> flag i j = flag' i j) ->
  first_flagged flag n m = first_flagged flag' n m.
Proof.
  intros H. unfold first_flagged. apply find_ext_in.
  intros [i j] Hin. apply in_scan_order in Hin. simpl. apply H; tauto.
Qed.

(** On a tensor with the phase channel whose values are 0 or 1,
    [check_phase] raises exactly when some call is heterozygous and
    unphased, and then reports the first such call of the scan. *)
Lemma check_phase_narrow (g : Genotypes) (a : ndarray) (n m c : nat) :
  data g = DArray a ->
  arr_shape a = Sh3 n m c ->
  3 <= c ->
  narrow_values a n m ->
  match first_flagged (heterozygous_unphased a) n m with
  | Some (i, j) => check_phase g = (report Unphased g i j, g)
  | None => exists g', check_phase g = (Ok tt, g')
  end.
Proof.
  intros Hd Hs Hc Hnarrow.
  assert (Hext :
    first_flagged (fun i j => negb (unphased_bits a i j =? 0)%Z) n m
    = first_flagged (heterozygous_unphased a) n m).
  { apply first_flagged_ext. intros i j Hi Hj.
    apply unphased_bits_narrow; apply Hnarrow; lia. }
  destruct (first_flagged (heterozygous_unphased a) n m) as [[i j]|] eqn:Hff.
  - apply (check_phase_report_eq g a n m c i j Hd Hs Hc Hext).
  - eexists. apply (check_phase_clean_eq g a n m c Hd Hs Hc Hext).
Qed.

(** ** The repository's tests on the model *)

Example test_load :
  load simple_vcf "simple.vcf" None None = (Ok tt, checked).
Proof. vm_compute. reflexivity. Qed.

Example test_load_genotypes_read :
  data loaded = DArray expected_genotypes /\ samples loaded = simple_samples.
Proof. split; vm_compute; reflexivity. Qed.

Example test_load_genotypes_read_again :
  log (snd (read simple_vcf None None loaded))
  = ["The data has already been loaded. Overriding."%string].
Proof. vm_compute. reflexivity. Qed.

Example test_load_genotypes_multiallelic :
  exists m,
    fst (check_biallelic false loaded_multiallelic) = Raise (ValueError m)
    /\ render m
       = "Variant with ID 1:10116:A:G at POS 1:10116 is multiallelic for sample HG00097"%string.
Proof. eexists. split; vm_compute; reflexivity. Qed.

Example test_load_genotypes_unphased :
  exists m,
    fst (check_phase (poke 1 1 2 0 (snd (check_biallelic false loaded))))
      = Raise (ValueError m)
    /\ render m
       = "Variant with ID 1:10116:A:G at POS 1:10116 is unphased for sample HG00097"%string.
Proof. eexists. split; vm_compute; reflexivity. Qed.

Example test_load_genotypes_checks :
  data checked = DArray (build3 bool_ 5 4 2 (get3 expected_genotypes))
  /\ log (snd (check_phase checked))
     = ["Phase information has already been removed from the data"%string].
Proof. split; vm_compute; reflexivity. Qed.

Example test_load_genotypes_to_MAC :
  exists rows,
    variants (snd (to_MAC checked)) = Structured "maf" rows
    /\ option_map v_freq (nth_error rows 1) = Some 0.4%float
    /\ log (snd (to_MAC (snd (to_MAC checked)))) = [maf_warning].
Proof. eexists. repeat split; vm_compute; reflexivity. Qed.

Example test_load_genotypes_discard_multiallelic :
  data (snd (check_biallelic true loaded_multiallelic))
  = DArray
      (build3 bool_ 5 3 3
         (fun i j k => get3 expected_genotypes i (if j =? 0 then 0 else S j) k))
  /\ len_variants (variants (snd (check_biallelic true loaded_multiallelic)))
     = 3.
Proof. split; vm_compute; reflexivity. Qed.

Example test_load_genotypes_subset :
  exists g,
    read simple_vcf (Some "1:10115-10117"%string)
      (Some ["HG00097"; "HG00100"]%string) (Genotypes_init "simple.vcf.gz")
    = (Ok tt, g)
    /\ data g
       = DArray
           (build3 uint8 2 2 3
              (fun i j k => get3 expected_genotypes (2 * i + 1) (S j) k))
    /\ samples g = ["HG00097"; "HG00100"]%string.
Proof. eexists. repeat split; vm_compute; reflexivity. Qed.

(** * Further properties of the module *)

(** ** What the checks report on a consistent object *)

Lemma item_in_range {A : Type} (l : list A) (i : nat) :
  i < length l -> exists x, item l i = Ok x.
Proof.
  intros Hi. unfold item. destruct (nth_error l i) as [x|] eqn:E; [eauto|].
  apply nth_error_None in E. lia.
Qed.

Lemma variants_item_in_range (v : variants_arr) (j : nat) :
  j < len_variants v -> exists r, variants_item v j = Ok r.
Proof.
  destruct v as [|nm rows]; simpl; intros Hj; [lia|].
  apply item_in_range. exact Hj.
Qed.

Lemma report_in_range kind (g : Genotypes) (i j : nat) :
  i < length (samples g) ->
  j < len_variants (variants g) ->
  exists r name,
    variants_item (variants g) j = Ok r
    /\ item (samples g) i = Ok name
    /\ report kind g i j
       = Raise (ValueError (kind (v_id r) (v_chrom r) (v_pos r) name)).
Proof.
  intros Hi Hj.
  destruct (variants_item_in_range _ _ Hj) as [r Hr].
  destruct (item_in_range _ _ Hi) as [name Hn].
  exists r, name. unfold report. rewrite Hr, Hn. auto.
Qed.

Lemma first_flagged_none (flag : nat -> nat -> bool) n m :
  first_flagged flag n m = None ->
  forall i j, i < n -> j < m -> flag i j = false.
Proof.
  unfold first_flagged. intros H i j Hi Hj.
  apply (find_none _ _ H (i, j)). apply in_scan_order. lia.
Qed.

Lemma axes_agree_inv (g : Genotypes) (a : ndarray) (n m c : nat) :
  axes_agree g -> data g = DArray a -> arr_shape a = Sh3 n m c ->
  n = length (samples g) /\ m = len_variants (variants g).
Proof.
  unfold axes_agree. intros H Hd Hs. rewrite Hd, Hs in H. exact H.
Qed.

(** X1. On a tensor that is not yet boolean and whose axes agree with the
    metadata, [check_biallelic()] either raises the [ValueError] that names
    the variant and the sample of the least pair, in sample-major order, with
    a strand value above 1, leaving the object as it was, or no strand value
    is above 1 and it returns normally.  No other exception is possible. *)
Theorem check_biallelic_outcome (g : Genotypes) (a : ndarray) (n m c : nat) :
  data g = DArray a ->
  arr_dtype a <> bool_ ->
  arr_shape a = Sh3 n m c ->
  axes_agree g ->
  (exists i j r name,
      check_biallelic false g
        = (Raise (ValueError
                    (Multiallelic (v_id r) (v_chrom r) (v_pos r) name)), g)
      /\ variants_item (variants g) j = Ok r
      /\ item (samples g) i = Ok name
      /\ multiallelic_at a i j = true
      /\ forall i' j', i' < n -> j' < m -> multiallelic_at a i' j' = true ->
           i < i' \/ (i = i' /\ j <= j'))
  \/ ((forall i j, i < n -> j < m -> multiallelic_at a i j = false)
      /\ exists g', check_biallelic false g = (Ok tt, g')).
Proof.
  intros Hd Ht Hs Hax.
  destruct (axes_agree_inv g a n m c Hax Hd Hs) as [Hn Hm].
  destruct (first_flagged (multiallelic_at a) n m) as [[i j]|] eqn:Hff.
  - left.
    destruct (first_flagged_least _ _ _ _ _ Hff) as (Hi & Hj & Hf & Hleast).
    destruct (report_in_range Multiallelic g i j) as (r & name & Hr & Hnm & Hrep);
      [lia | lia |].
    exists i, j, r, name.
    rewrite (check_biallelic_report_eq g a n m c i j Hd Ht Hs Hff), Hrep.
    auto.
  - right. split; [apply first_flagged_none; exact Hff|].
    eexists. apply (check_biallelic_clean_eq false g a n m c Hd Ht Hs Hff).
Qed.

(** X2. On a tensor with the phase channel whose values are all 0 or 1 and
    whose axes agree with the metadata, [check_phase()] either raises the
    [ValueError] that names the variant and the sample of the least pair, in
    sample-major order, whose call is heterozygous and unphased, leaving the
    object as it was, or there is no such call and it returns normally. *)
Theorem check_phase_outcome (g : Genotypes) (a : ndarray) (n m c : nat) :
  data g = DArray a ->
  arr_shape a = Sh3 n m c ->
  3 <= c ->
  narrow_values a n m ->
  axes_agree g ->
  (exists i j r name,
      check_phase g
        = (Raise (ValueError (Unphased (v_id r) (v_chrom r) (v_pos r) name)),
           g)
      /\ variants_item (variants g) j = Ok r
      /\ item (samples g) i = Ok name
      /\ heterozygous_unphased a i j = true
      /\ forall i' j', i' < n -> j' < m ->
           heterozygous_unphased a i' j' = true ->
           i < i' \/ (i = i' /\ j <= j'))
  \/ ((forall i j, i < n -> j < m -> heterozygous_unphased a i j = false)
      /\ exists g', check_phase g = (Ok tt, g')).
Proof.
  intros Hd Hs Hc Hnarrow Hax.
  destruct (axes_agree_inv g a n m c Hax Hd Hs) as [Hn Hm].
  pose proof (check_phase_narrow g a n m c Hd Hs Hc Hnarrow) as Hrun.
  destruct (first_flagged (heterozygous_unphased a) n m) as [[i j]|] eqn:Hff.
  - left.
    destruct (first_flagged_least _ _ _ _ _ Hff) as (Hi & Hj & Hf & Hleast).
    destruct (report_in_range Unphased g i j) as (r & name & Hr & Hnm & Hrep);
      [lia | lia |].
    exists i, j, r, name. rewrite Hrun, Hrep. auto.
  - right. split; [apply first_flagged_none; exact Hff | exact Hrun].
Qed.

(** ** What the steps change when they return *)

Lemma find_all_false {A : Type} (f : A -> bool) (l : list A) :
  (forall x, In x l -> f x = false) -> find f l = None.
Proof.
  induction l as [|x l IH]; intros H; simpl; [reflexivity|].
  rewrite H by (left; reflexivity).
  apply IH. intros y Hy. apply H. right. exact Hy.
Qed.

Lemma first_flagged_none_intro (flag : nat -> nat -> bool) n m :
  (forall i j, i < n -> j < m -> flag i j = false) ->
  first_flagged flag n m = None.
Proof.
  intros H. unfold first_flagged. apply find_all_false.
  intros [i j] Hin. apply in_scan_order in Hin. simpl. apply H; tauto.
Qed.

Lemma report_not_ok kind (g : Genotypes) (i j : nat) :
  report kind g i j <> Ok tt.
Proof.
  unfold report. destruct (variants_item (variants g) j); [|discriminate].
  destruct (item (samples g) i); discriminate.
Qed.

Lemma truth_small (z : Z) : (0 <= z <= 1)%Z -> truth z = z.
Proof.
  intros Hz. unfold truth.
  assert (E : (z = 0 \/ z = 1)%Z) by lia.
  destruct E as [-> | ->]; reflexivity.
Qed.

Lemma not_multiallelic_small (a : ndarray) (n m c i j k : nat) :
  arr_shape a = Sh3 n m c ->
  multiallelic_at a i j = false ->
  k < 2 -> k < c ->
  (get3 a i j k <= 1)%Z.
Proof.
  intros Hs Hf Hk2 Hkc. unfold multiallelic_at, channels in Hf.
  rewrite Hs in Hf.
  assert (Hin : In k (seq 0 (Nat.min 2 c))) by (apply in_seq; lia).
  destruct (1 <? get3 a i j k)%Z eqn:E; [|apply Z.ltb_ge in E; exact E].
  assert (Hex : existsb (fun k => (1 <? get3 a i j k)%Z)
                  (seq 0 (Nat.min 2 c)) = true)
    by (apply existsb_exists; exists k; split; assumption).
  congruence.
Qed.

(** X3. When no strand value of a tensor that is not yet boolean exceeds 1,
    [check_biallelic] with either flag returns normally, keeps samples,
    variants, log and shape, and narrows the tensor to booleans: every entry
    becomes 1 if it was nonzero and 0 otherwise, so a strand value that was
    0 or 1 keeps its value. *)
Theorem check_biallelic_narrows_clean (b : bool) (g : Genotypes)
    (a : ndarray) (n m c : nat) :
  data g = DArray a ->
  arr_dtype a <> bool_ ->
  arr_shape a = Sh3 n m c ->
  well_shaped a ->
  (forall i j, i < n -> j < m -> multiallelic_at a i j = false) ->
  exists g1 a1,
    check_biallelic b g = (Ok tt, g1)
    /\ data g1 = DArray a1
    /\ samples g1 = samples g
    /\ variants g1 = variants g
    /\ log g1 = log g
    /\ arr_dtype a1 = bool_
    /\ arr_shape a1 = Sh3 n m c
    /\ forall i j k,
         i < n -> j < m -> k < c ->
         get3 a1 i j k = truth (get3 a i j k)
         /\ (k < 2 -> (0 <= get3 a i j k)%Z ->
             get3 a1 i j k = get3 a i j k).
Proof.
  intros Hd Ht Hs Hw Hclean.
  pose proof (first_flagged_none_intro _ _ _ Hclean) as Hff.
  do 2 eexists.
  split; [apply (check_biallelic_clean_eq b g a n m c Hd Ht Hs Hff)|].
  cbn [data samples variants log].
  repeat (split; [reflexivity|]).
  split; [unfold astype_bool; cbn; exact Hs|].
  intros i j k Hi Hj Hk.
  assert (Hget : get3 (astype_bool a) i j k = truth (get3 a i j k))
    by (apply (get3_map a bool_ truth n m c); assumption).
  split; [exact Hget|].
  intros Hk2 Hpos. rewrite Hget. apply truth_small.
  split; [exact Hpos|].
  apply (not_multiallelic_small a n m c i j k Hs); auto.
Qed.

(** X4. On an object whose tensor axes agree with the metadata,
    [check_biallelic(discard_also=True)] never raises. *)
Theorem check_biallelic_discard_returns (g : Genotypes) :
  axes_agree g -> exists g', check_biallelic true g = (Ok tt, g').
Proof.
  intros Hagree. pose proof Hagree as Hax. unfold axes_agree in Hax.
  destruct (data g) as [| |a] eqn:Hd; try contradiction.
  destruct (arr_shape a) as [| |n m c] eqn:Hs; try contradiction.
  destruct Hax as [Hn Hm].
  destruct (dtype_eqb (arr_dtype a) bool_) eqn:Hdt.
  { apply dtype_eqb_eq in Hdt. eexists.
    apply (check_biallelic_again true g a Hd Hdt). }
  assert (Ht : arr_dtype a <> bool_).
  { intros E. apply dtype_eqb_eq in E. congruence. }
  destruct (first_flagged (multiallelic_at a) n m) as [[i j]|] eqn:Hff.
  2:{ eexists. apply (check_biallelic_clean_eq true g a n m c Hd Ht Hs Hff). }
  pose proof (first_flagged_in _ _ _ _ _ Hff) as (Hi & Hj & Hflag).
  destruct (variants g) as [|nm rows] eqn:Hv; simpl in Hm; [lia|].
  eexists.
  apply (check_biallelic_discard_eq g a nm rows n m c Hd Ht Hs Hv (eq_sym Hm)).
  apply existsb_exists. exists (i, j).
  split; [apply in_scan_order; lia | exact Hflag].
Qed.

(** X5. When [check_phase] returns normally on a tensor that still has the
    phase channel, it has removed that channel and nothing else: the tensor
    keeps its element type and both strand values of every call, and
    samples, variants and log are untouched. *)
Theorem check_phase_keeps_strands (g g1 : Genotypes) (a : ndarray)
    (n m c : nat) :
  data g = DArray a ->
  arr_shape a = Sh3 n m c ->
  3 <= c ->
  check_phase g = (Ok tt, g1) ->
  exists a1,
    data g1 = DArray a1
    /\ arr_shape a1 = Sh3 n m 2
    /\ arr_dtype a1 = arr_dtype a
    /\ samples g1 = samples g
    /\ variants g1 = variants g
    /\ log g1 = log g
    /\ forall i j k, i < n -> j < m -> k < 2 ->
         get3 a1 i j k = get3 a i j k.
Proof.
  intros Hd Hs Hc Hrun.
  destruct (first_flagged (fun i j => negb (unphased_bits a i j =? 0)%Z) n m)
    as [[i j]|] eqn:Hff.
  { rewrite (check_phase_report_eq g a n m c i j Hd Hs Hc Hff) in Hrun.
    inversion Hrun as [[Hrep Hg]]. exfalso.
    exact (report_not_ok _ _ _ _ Hrep). }
  rewrite (check_phase_clean_eq g a n m c Hd Hs Hc Hff) in Hrun.
  inversion Hrun; subst g1. cbn [data samples variants log].
  eexists. split; [reflexivity|].
  repeat (split; [reflexivity|]).
  intros i j k Hi Hj Hk. apply get3_build3; assumption.
Qed.

(** ** [to_MAC]: what it keeps, and when it raises *)

(** [to_MAC] on a matrix whose frequency field is still [aaf]. *)
Lemma to_MAC_aaf_eq (g : Genotypes) (a : ndarray)
    (rows : list variant_rec) (n m c : nat) :
  data g = DArray a ->
  arr_shape a = Sh3 n m c ->
  variants g = Structured "aaf" rows ->
  length rows = m ->
  to_MAC g
  = (Ok tt,
     mk_Genotypes (fname g) (log g)
       (DArray
          (build3 (arr_dtype a) n m c
             (fun i j k =>
                if (k <? 2)
                   && nth j (map (fun r => (0.5 <? v_freq r)%float) rows) false
                then invert (arr_dtype a) (get3 a i j k)
                else get3 a i j k)))
       (samples g) (Structured "maf" (map recode_row rows))).
Proof.
  intros Hd Hs Hv Hlen.
  unfold to_MAC, flip_columns.
  unfold bind, get, data_item, lift, ret, set_data, set_variants.
  rewrite Hv. cbn [String.eqb]. cbn. rewrite Hd. cbn.
  rewrite Hs, length_map, Hlen, Nat.eqb_refl. reflexivity.
Qed.

(** X6. Recoding touches the two strand channels and the frequency only:
    on a matrix whose frequency field is still [aaf], the phase channel of
    every call (any channel from the third on) and the id, chromosome and
    position of every variant are what they were, also for the variants that
    are flipped; samples, log, shape and element type are kept. *)
Theorem to_MAC_keeps_phase_and_ids (g : Genotypes) (a : ndarray)
    (rows : list variant_rec) (n m c : nat) :
  data g = DArray a ->
  arr_shape a = Sh3 n m c ->
  variants g = Structured "aaf" rows ->
  length rows = m ->
  exists g1 a1 rows1,
    to_MAC g = (Ok tt, g1)
    /\ data g1 = DArray a1
    /\ variants g1 = Structured "maf" rows1
    /\ samples g1 = samples g
    /\ log g1 = log g
    /\ arr_dtype a1 = arr_dtype a
    /\ (forall i j k, i < n -> j < m -> 2 <= k < c ->
          get3 a1 i j k = get3 a i j k)
    /\ map v_id rows1 = map v_id rows
    /\ map v_chrom rows1 = map v_chrom rows
    /\ map v_pos rows1 = map v_pos rows.
Proof.
  intros Hd Hs Hv Hlen.
  do 3 eexists.
  split; [apply (to_MAC_aaf_eq g a rows n m c Hd Hs Hv Hlen)|].
  cbn [data variants samples log].
  repeat (split; [reflexivity|]).
  split.
  { intros i j k Hi Hj Hk. rewrite get3_build3 by (try assumption; lia).
    assert (Hk2 : (k <? 2) = false) by (apply Nat.ltb_ge; lia).
    rewrite Hk2. reflexivity. }
  rewrite !map_map.
  repeat split; apply map_ext; intros r; unfold recode_row;
    destruct (0.5 <? v_freq r)%float; reflexivity.
Qed.

(** X7. [to_MAC] does nothing by halves: whenever it raises ([variants]
    without fields, a frequency field that is neither [aaf] nor [maf], no
    tensor, a tensor of fewer than three axes or whose variant axis differs
    from [variants]), the object is exactly what it was. *)
Theorem to_MAC_raise_keeps_object (g g' : Genotypes) (e : exn) :
  to_MAC g = (Raise e, g') -> g' = g.
Proof.
  unfold to_MAC, flip_columns. run. intros H.
  repeat (split_match; same_state).
Qed.

(** X8. On an object whose tensor axes agree with the metadata and whose
    frequency field is named [aaf] or [maf], which is what [read] and the
    three steps leave, [to_MAC] returns normally. *)
Theorem to_MAC_returns (g : Genotypes) (nm : string)
    (rows : list variant_rec) :
  axes_agree g ->
  variants g = Structured nm rows ->
  nm = "aaf"%string \/ nm = "maf"%string ->
  exists g', to_MAC g = (Ok tt, g').
Proof.
  intros Hax Hv Hnm. unfold axes_agree in Hax.
  destruct (data g) as [| |a] eqn:Hd; try contradiction.
  destruct (arr_shape a) as [| |n m c] eqn:Hs; try contradiction.
  destruct Hax as [Hn Hm]. rewrite Hv in Hm. simpl in Hm.
  destruct Hnm as [-> | ->].
  - eexists. apply (to_MAC_aaf_eq g a rows n m c Hd Hs Hv (eq_sym Hm)).
  - eexists. apply (to_MAC_again g rows Hv).
Qed.

(** ** [read]: what it stores *)

Lemma read_axes_agree
    (open_vcf : string -> option (list string) -> VCF)
    (region : option string) (sel : option (list string))
    (g g' : Genotypes) :
  reader_consistent (open_vcf (fname g) sel) ->
  read open_vcf region sel g = (Ok tt, g') ->
  axes_agree g'.
Proof.
  intros Hcons Hread.
  destruct (read_ok _ _ _ _ _ Hread)
    as (first & rest & call & calls & Hr & Hg1 & Hsm & Hv & Hd).
  unfold axes_agree. rewrite Hd, Hsm, Hv. unfold build3. cbn.
  rewrite length_map. split; [|reflexivity].
  apply (Hcons region). rewrite Hr. left. reflexivity.
Qed.

(** X9. After a successful [read] the metadata is aligned with the tensor:
    [variants] has one row per record of the reader, in the reader's order,
    holding the record's id cut to 50 characters, its chromosome cut to 10,
    its position and its alternate-allele frequency under the field name
    [aaf]; the variant axis of the tensor has that many columns, and every
    entry of the [uint8] tensor lies between 0 and 255. *)
Theorem read_aligns_variants
    (open_vcf : string -> option (list string) -> VCF)
    (region : option string) (sel : option (list string))
    (g g' : Genotypes) :
  read open_vcf region sel g = (Ok tt, g') ->
  exists a n m c rows,
    data g' = DArray a
    /\ arr_dtype a = uint8
    /\ arr_shape a = Sh3 n m c
    /\ variants g' = Structured "aaf" rows
    /\ m = length (vcf_call (open_vcf (fname g) sel) region)
    /\ length rows = m
    /\ (forall j v,
          nth_error (vcf_call (open_vcf (fname g) sel) region) j = Some v ->
          nth_error rows j
          = Some (mk_variant_rec (substring 0 50 (ID v))
                    (substring 0 10 (CHROM v)) (POS v) (aaf v)))
    /\ forall i j k, i < n -> j < m -> k < c ->
         (0 <= get3 a i j k < 256)%Z.
Proof.
  intros H.
  destruct (read_ok _ _ _ _ _ H)
    as (first & rest & call0 & calls & Hr & Hg1 & Hsm & Hv & Hd).
  do 5 eexists. split; [exact Hd|].
  split; [reflexivity|]. split; [reflexivity|]. split; [exact Hv|].
  split; [reflexivity|]. split; [apply length_map|].
  split.
  - intros j v Hj. rewrite nth_error_map, Hj. reflexivity.
  - intros i j k Hi Hj Hk. rewrite get3_build3 by assumption.
    apply Z.mod_pos_bound. lia.
Qed.



(** ** [iterate] *)

Lemma calls_array_ok (l : list (list Z)) (call : list Z)
    (calls : list (list Z)) :
  l = call :: calls ->
  same_length (length call) l = true ->
  np_array_uint8_calls l
  = Ok (build2 uint8 (length l) (length call)
          (fun i k => (nth k (nth i l []) 0 mod 256)%Z)).
Proof.
  intros -> Hsame. unfold np_array_uint8_calls. rewrite Hsame. reflexivity.
Qed.





Lemma np_array_uint8_rect (l : list (list (list Z))) (a : ndarray) p n c :
  np_array_uint8 l = Ok a ->
  arr_shape a = Sh3 p n c ->
  0 < n
  /\ Forall (fun r => length r = n /\ same_length c r = true) l.
Proof.
  unfold np_array_uint8. intros Ha Hs.
  destruct l as [|first rest]; [inversion Ha; subst; discriminate|].
  destruct (same_length (length first) (first :: rest)) eqn:H1;
    [|discriminate].
  destruct first as [|call calls]; [inversion Ha; subst; discriminate|].
  destruct (forallb (same_length (length call)) ((call :: calls) :: rest))
    eqn:H2; [|discriminate].
  cbn [negb] in Ha. inversion Ha; subst a.
  unfold build3 in Hs. cbn in Hs. inversion Hs; subst.
  split; [simpl; lia|].
  apply Forall_forall. intros r Hr. split.
  - unfold same_length in H1. rewrite forallb_forall in H1.
    apply Nat.eqb_eq. apply H1. exact Hr.
  - rewrite forallb_forall in H2. apply H2. exact Hr.
Qed.

Lemma yield_records_all (names : list string) (n c : nat)
    (records : list Variant) :
  0 < n ->
  Forall (fun r => length r = n /\ same_length c r = true)
    (map genotypes records) ->
  yield_records names records
  = (map (fun v =>
            mk_Record
              (build2 uint8 n c
                 (fun i k => (nth k (nth i (genotypes v) []) 0 mod 256)%Z))
              names (variant_row v))
       records,
     None).
Proof.
  intros Hn. induction records as [|v rest IH]; intros Hall; simpl;
    [reflexivity|].
  simpl in Hall. inversion Hall as [|x xs Hhd Hrest]; subst.
  destruct Hhd as [Hlen Hsame].
  destruct (genotypes v) as [|call calls] eqn:Hg; [simpl in Hlen; lia|].
  assert (Hc : length call = c).
  { unfold same_length in Hsame. simpl in Hsame.
    apply andb_prop in Hsame. destruct Hsame as [Hsame _].
    apply Nat.eqb_eq. exact Hsame. }
  rewrite (calls_array_ok (call :: calls) call calls eq_refl)
    by (rewrite Hc; exact Hsame).
  rewrite (IH Hrest), Hc, Hlen. reflexivity.
Qed.

(** A successful [read]: the calls of all records have one shape. *)
Lemma read_ok_rect (open_vcf : string -> option (list string) -> VCF)
    (region : option string) (sel : option (list string))
    (g g' : Genotypes) :
  read open_vcf region sel g = (Ok tt, g') ->
  exists n c,
    0 < n
    /\ Forall (fun r => length r = n /\ same_length c r = true)
         (map genotypes (vcf_call (open_vcf (fname g) sel) region))
    /\ samples g' = vcf_samples (open_vcf (fname g) sel)
    /\ variants g'
       = Structured "aaf"
           (map variant_row (vcf_call (open_vcf (fname g) sel) region))
    /\ data g'
       = DArray
           (build3 uint8 n
              (length (vcf_call (open_vcf (fname g) sel) region)) c
              (fun i j k =>
                 (nth k
                    (nth i
                       (nth j
                          (map genotypes
                             (vcf_call (open_vcf (fname g) sel) region))
                          []) []) 0 mod 256)%Z)).
Proof.
  intros H. pose proof H as Hread.
  unfold read in H.
  unfold bind at 1 in H.
  destruct (Data_read g) as [r0 g0] eqn:E0.
  assert (Hg0 : r0 = Ok tt /\ fname g0 = fname g).
  { unfold Data_read, bind, get, ret, warning in E0.
    destruct (data g); inversion E0; auto. }
  destruct Hg0 as [-> Hf].
  unfold bind, get, lift, set_samples, set_data, set_variants in H.
  cbn [fname log data samples variants] in H.
  rewrite Hf in H.
  destruct (np_array_uint8 _) as [a|] eqn:Ea; [|discriminate].
  destruct (transpose_102 a) as [t|] eqn:Et.
  2:{ destruct (shape_eqb _ _); unfold warning, ret in H; discriminate. }
  apply transpose_102_ok in Et. destruct Et as (p & n & c & Hs & _).
  destruct (np_array_uint8_rect _ _ _ _ _ Ea Hs) as [Hn Hall].
  destruct (np_array_uint8_three _ _ _ _ _ Ea Hs)
    as (gf & gr & cl & cls & Hl & Hgf & Hp & Hn' & Hc & Ha).
  destruct (read_ok _ _ _ _ _ Hread)
    as (first & rest & call0 & calls & Hr & Hg1 & Hsm & Hv & Hd).
  rewrite Hr in Hl. cbn [map] in Hl.
  assert (Hcl : call0 :: calls = cl :: cls) by congruence.
  assert (Hn0 : length (genotypes first) = n) by congruence.
  assert (Hc0 : length call0 = c) by congruence.
  exists n, c. split; [exact Hn|]. split; [exact Hall|].
  split; [exact Hsm|]. split; [exact Hv|].
  rewrite Hd, Hn0, Hc0. reflexivity.
Qed.

(** X12. [iterate] and [read] agree: whenever [read] succeeds, an iteration
    with the same region and sample list completes without an exception and
    yields as many records as the tensor has variants; record [t] holds
    column [t] of the tensor ([data[:, t, :]]), the samples of the object,
    and row [t] of [variants]. *)
Theorem iterate_agrees_with_read
    (open_vcf : string -> option (list string) -> VCF)
    (region : option string) (sel : option (list string))
    (g g' : Genotypes) :
  read open_vcf region sel g = (Ok tt, g') ->
  exists a n m c rows yielded,
    data g' = DArray a
    /\ arr_shape a = Sh3 n m c
    /\ variants g' = Structured "aaf" rows
    /\ iterate open_vcf region sel g = (yielded, None)
    /\ length yielded = m
    /\ forall t y,
         nth_error yielded t = Some y ->
         rec_data y = column a t
         /\ rec_samples y = samples g'
         /\ nth_error rows t = Some (rec_variants y).
Proof.
  intros H.
  destruct (read_ok_rect _ _ _ _ _ H)
    as (n & c & Hn & Hall & Hsm & Hv & Hd).
  set (records := vcf_call (open_vcf (fname g) sel) region) in *.
  do 6 eexists. split; [exact Hd|]. split; [reflexivity|].
  split; [exact Hv|].
  split; [unfold iterate; fold records;
          apply (yield_records_all _ n c records Hn Hall)|].
  split; [apply length_map|].
  intros t y Ht.
  rewrite nth_error_map in Ht.
  destruct (nth_error records t) as [v|] eqn:Hrec; [|discriminate].
  inversion Ht; subst y. cbn [rec_data rec_samples rec_variants].
  assert (Htm : t < length records).
  { apply nth_error_Some. rewrite Hrec. discriminate. }
  split.
  - unfold column. cbn [arr_shape arr_dtype build3].
    apply build2_ext. intros i k Hi Hk.
    rewrite get3_build3 by assumption.
    rewrite (nth_map_of_nth_error genotypes records t v) by exact Hrec.
    reflexivity.
  - split; [symmetry; exact Hsm|].
    rewrite nth_error_map, Hrec. reflexivity.
Qed.

(** ** [load]: the pipeline *)

Lemma truth_zero (z : Z) : (truth z =? 0)%Z = (z =? 0)%Z.
Proof. unfold truth. destruct (z =? 0)%Z; reflexivity. Qed.

Lemma truth_range (z : Z) : (0 <= truth z <= 1)%Z.
Proof. unfold truth. destruct (z =? 0)%Z; lia. Qed.

Lemma load_unfold (open_vcf : string -> option (list string) -> VCF)
    (path : string) (region : option string) (sel : option (list string)) :
  load open_vcf path region sel
  = match read open_vcf region sel (Genotypes_init path) with
    | (Ok _, g0) =>
        match check_biallelic false g0 with
        | (Ok _, g1) => check_phase g1
        | (Raise e, g1) => (Raise e, g1)
        end
    | (Raise e, g0) => (Raise e, g0)
    end.
Proof.
  unfold load, bind.
  destruct (read open_vcf region sel (Genotypes_init path)) as [[u|e] g0];
    [|reflexivity].
  destruct (check_biallelic false g0) as [[u'|e] g1]; reflexivity.
Qed.

(** The narrowed tensor has the heterozygous and unphased calls of a tensor
    whose strand values are 0 or 1. *)
Lemma narrowed_same_calls (f : nat -> nat -> nat -> Z) (n m c i j : nat) :
  3 <= c -> i < n -> j < m ->
  (0 <= f i j 0%nat <= 1)%Z -> (0 <= f i j 1%nat <= 1)%Z ->
  heterozygous_unphased
    (build3 bool_ n m c (fun i j k => truth (f i j k))) i j
  = heterozygous_unphased (build3 uint8 n m c f) i j.
Proof.
  intros Hc Hi Hj H0 H1. unfold heterozygous_unphased.
  rewrite !get3_build3 by lia.
  rewrite (truth_small _ H0), (truth_small _ H1), truth_zero. reflexivity.
Qed.

(** X13. What [load] returns is decided by the tensor that [read] builds
    (from a reader that hands out one call per sample, with the phase
    channel): it raises the [ValueError] naming the least pair, in
    sample-major order, with a strand value above 1; or, when there is none,
    the [ValueError] naming the least pair whose call is heterozygous and
    unphased; or, when there is none either, it returns the object.  In the
    order of [load] the phase check runs on narrowed data, so it flags the
    heterozygous and unphased calls and no other. *)
Theorem load_outcome
    (open_vcf : string -> option (list string) -> VCF)
    (path : string) (region : option string) (sel : option (list string))
    (g0 : Genotypes) (a : ndarray) (n m c : nat) :
  reader_consistent (open_vcf path sel) ->
  read open_vcf region sel (Genotypes_init path) = (Ok tt, g0) ->
  data g0 = DArray a ->
  arr_shape a = Sh3 n m c ->
  3 <= c ->
  (exists i j r name,
      fst (load open_vcf path region sel)
        = Raise (ValueError
                   (Multiallelic (v_id r) (v_chrom r) (v_pos r) name))
      /\ variants_item (variants g0) j = Ok r
      /\ item (samples g0) i = Ok name
      /\ multiallelic_at a i j = true
      /\ forall i' j', i' < n -> j' < m -> multiallelic_at a i' j' = true ->
           i < i' \/ (i = i' /\ j <= j'))
  \/ ((forall i j, i < n -> j < m -> multiallelic_at a i j = false)
      /\ exists i j r name,
           fst (load open_vcf path region sel)
             = Raise (ValueError
                        (Unphased (v_id r) (v_chrom r) (v_pos r) name))
           /\ variants_item (variants g0) j = Ok r
           /\ item (samples g0) i = Ok name
           /\ heterozygous_unphased a i j = true
           /\ forall i' j', i' < n -> j' < m ->
                heterozygous_unphased a i' j' = true ->
                i < i' \/ (i = i' /\ j <= j'))
  \/ ((forall i j, i < n -> j < m -> multiallelic_at a i j = false)
      /\ (forall i j, i < n -> j < m -> heterozygous_unphased a i j = false)
      /\ exists g, load open_vcf path region sel = (Ok tt, g)).
Proof.
  intros Hcons Hread Hd Hs Hc.
  assert (Hax : axes_agree g0)
    by (apply (read_axes_agree open_vcf region sel (Genotypes_init path));
        assumption).
  destruct (axes_agree_inv g0 a n m c Hax Hd Hs) as [Hn Hm].
  destruct (read_ok_rect _ _ _ _ _ Hread)
    as (n' & c' & _ & _ & _ & _ & Hd').
  rewrite Hd in Hd'. injection Hd' as Ha.
  cbn [fname Genotypes_init Data_init] in Ha.
  set (F := fun i j k : nat =>
    (nth k (nth i (nth j
       (map genotypes (vcf_call (open_vcf path sel) region))
       []) []) 0 mod 256)%Z) in *.
  assert (Hdim : n' = n
                 /\ length (vcf_call (open_vcf path sel) region) = m
                 /\ c' = c).
  { pose proof Hs as Hs'. rewrite Ha in Hs'. unfold build3 in Hs'.
    cbn [arr_shape] in Hs'. injection Hs' as En Em Ec. auto. }
  destruct Hdim as (En & Em & Ec). rewrite En, Em, Ec in Ha. clear Hs.
  assert (Hs : arr_shape a = Sh3 n m c) by (rewrite Ha; reflexivity).
  assert (Ht : arr_dtype a <> bool_) by (rewrite Ha; discriminate).
  assert (Hpos : forall i j k, (0 <= F i j k)%Z)
    by (intros; unfold F; apply Z.mod_pos_bound; lia).
  rewrite load_unfold, Hread.
  destruct (first_flagged (multiallelic_at a) n m) as [[i j]|] eqn:Hff.
  { left.
    destruct (first_flagged_least _ _ _ _ _ Hff) as (Hi & Hj & Hf & Hleast).
    destruct (report_in_range Multiallelic g0 i j)
      as (r & name & Hr & Hnm & Hrep); [lia | lia |].
    exists i, j, r, name.
    rewrite (check_biallelic_report_eq g0 a n m c i j Hd Ht Hs Hff), Hrep.
    auto. }
  pose proof (first_flagged_none _ _ _ Hff) as Hclean.
  rewrite (check_biallelic_clean_eq false g0 a n m c Hd Ht Hs Hff).
  set (g1 := mk_Genotypes (fname g0) (log g0) (DArray (astype_bool a))
               (samples g0) (variants g0)).
  assert (Ha1 : astype_bool a
                = build3 bool_ n m c (fun i j k => truth (F i j k)))
    by (rewrite Ha; apply astype_bool_build3).
  assert (Hnarrow : narrow_values (astype_bool a) n m).
  { intros i j k Hi Hj Hk. rewrite Ha1, get3_build3 by lia.
    apply truth_range. }
  assert (Hs1 : arr_shape (astype_bool a) = Sh3 n m c)
    by (rewrite Ha1; reflexivity).
  pose proof (check_phase_narrow g1 (astype_bool a) n m c eq_refl Hs1 Hc
                Hnarrow) as Hrun.
  assert (Hext :
    first_flagged (heterozygous_unphased (astype_bool a)) n m
    = first_flagged (heterozygous_unphased a) n m).
  { apply first_flagged_ext. intros i j Hi Hj.
    rewrite Ha1.
    replace (heterozygous_unphased a i j)
      with (heterozygous_unphased (build3 uint8 n m c F) i j)
      by (rewrite <- Ha; reflexivity).
    apply narrowed_same_calls; try assumption.
    - split; [apply Hpos|].
      rewrite <- (get3_build3 uint8 n m c F i j 0) by lia. rewrite <- Ha.
      apply (not_multiallelic_small a n m c i j 0 Hs); auto; lia.
    - split; [apply Hpos|].
      rewrite <- (get3_build3 uint8 n m c F i j 1) by lia. rewrite <- Ha.
      apply (not_multiallelic_small a n m c i j 1 Hs); auto; lia. }
  rewrite Hext in Hrun.
  destruct (first_flagged (heterozygous_unphased a) n m) as [[i j]|] eqn:Hfp.
  - right. left. split; [exact Hclean|].
    destruct (first_flagged_least _ _ _ _ _ Hfp) as (Hi & Hj & Hf & Hleast).
    destruct (report_in_range Unphased g0 i j)
      as (r & name & Hr & Hnm & Hrep); [lia | lia |].
    exists i, j, r, name. rewrite Hrun.
    change (report Unphased g1 i j) with (report Unphased g0 i j).
    rewrite Hrep. auto.
  - right. right. split; [exact Hclean|].
    split; [apply first_flagged_none; exact Hfp | exact Hrun].
Qed.

Lemma check_phase_ok_eq (g g1 : Genotypes) (a : ndarray) (n m c : nat) :
  data g = DArray a ->
  arr_shape a = Sh3 n m c ->
  3 <= c ->
  check_phase g = (Ok tt, g1) ->
  g1 = mk_Genotypes (fname g) (log g)
         (DArray (build3 (arr_dtype a) n m 2 (get3 a))) (samples g)
         (variants g).
Proof.
  intros Hd Hs Hc Hrun.
  destruct (first_flagged (fun i j => negb (unphased_bits a i j =? 0)%Z) n m)
    as [[i j]|] eqn:Hff.
  { rewrite (check_phase_report_eq g a n m c i j Hd Hs Hc Hff) in Hrun.
    inversion Hrun as [[Hrep Hg]]. exfalso.
    exact (report_not_ok _ _ _ _ Hrep). }
  rewrite (check_phase_clean_eq g a n m c Hd Hs Hc Hff) in Hrun.
  inversion Hrun. reflexivity.
Qed.

(** X14. The object a successful [load] returns (from a reader that hands
    out one call per sample): its tensor is boolean with at most two
    channels, its axes agree with [samples] and [variants], [samples] is
    what the reader reports, [variants] has one row per record under the
    field name [aaf] ([to_MAC] has not run), and the strand values are the
    ones [read] stored. *)
Theorem load_result
    (open_vcf : string -> option (list string) -> VCF)
    (path : string) (region : option string) (sel : option (list string))
    (g : Genotypes) :
  reader_consistent (open_vcf path sel) ->
  load open_vcf path region sel = (Ok tt, g) ->
  exists g0 a0 a n m c0 c rows,
    read open_vcf region sel (Genotypes_init path) = (Ok tt, g0)
    /\ data g0 = DArray a0
    /\ arr_shape a0 = Sh3 n m c0
    /\ data g = DArray a
    /\ arr_dtype a = bool_
    /\ arr_shape a = Sh3 n m c
    /\ c = Nat.min 2 c0
    /\ samples g = vcf_samples (open_vcf path sel)
    /\ n = length (samples g)
    /\ variants g = Structured "aaf" rows
    /\ length rows = m
    /\ m = length (vcf_call (open_vcf path sel) region)
    /\ forall i j k, i < n -> j < m -> k < c ->
         get3 a i j k = get3 a0 i j k.
Proof.
  intros Hcons Hload. rewrite load_unfold in Hload.
  destruct (read open_vcf region sel (Genotypes_init path))
    as [[[]|e] g0] eqn:Hread; [|discriminate].
  assert (Hax : axes_agree g0)
    by (apply (read_axes_agree open_vcf region sel (Genotypes_init path));
        assumption).
  destruct (read_ok_rect _ _ _ _ _ Hread)
    as (n & c0 & _ & _ & Hsm & Hv & Hd).
  cbn [fname Genotypes_init Data_init] in Hsm, Hv, Hd.
  set (records := vcf_call (open_vcf path sel) region) in *.
  set (F := fun i j k : nat =>
    (nth k (nth i (nth j (map genotypes records) []) []) 0 mod 256)%Z) in *.
  set (a0 := build3 uint8 n (length records) c0 F) in *.
  assert (Hs0 : arr_shape a0 = Sh3 n (length records) c0) by reflexivity.
  assert (Ht0 : arr_dtype a0 <> bool_) by discriminate.
  destruct (axes_agree_inv g0 a0 n _ c0 Hax Hd Hs0) as [Hn Hm].
  assert (Hpos : forall i j k, (0 <= F i j k)%Z)
    by (intros; unfold F; apply Z.mod_pos_bound; lia).
  destruct (first_flagged (multiallelic_at a0) n (length records))
    as [[i j]|] eqn:Hff.
  { rewrite (check_biallelic_report_eq g0 a0 n _ c0 i j Hd Ht0 Hs0 Hff)
      in Hload.
    destruct (report Multiallelic g0 i j) as [[]|e] eqn:Hrep;
      [|discriminate].
    exfalso. exact (report_not_ok _ _ _ _ Hrep). }
  pose proof (first_flagged_none _ _ _ Hff) as Hclean.
  rewrite (check_biallelic_clean_eq false g0 a0 n _ c0 Hd Ht0 Hs0 Hff)
    in Hload.
  assert (Ha1 : astype_bool a0
                = build3 bool_ n (length records) c0
                    (fun i j k => truth (F i j k)))
    by apply astype_bool_build3.
  rewrite Ha1 in Hload.
  set (a1 := build3 bool_ n (length records) c0
               (fun i j k => truth (F i j k))) in *.
  set (g1 := mk_Genotypes (fname g0) (log g0) (DArray a1) (samples g0)
               (variants g0)) in *.
  assert (Hstrand : forall i j k,
    i < n -> j < length records -> k < Nat.min 2 c0 ->
    truth (F i j k) = get3 a0 i j k).
  { intros i j k Hi Hj Hk. unfold a0. rewrite get3_build3 by lia.
    apply truth_small. split; [apply Hpos|].
    rewrite <- (get3_build3 uint8 n (length records) c0 F i j k) by lia.
    apply (not_multiallelic_small a0 n (length records) c0 i j k Hs0);
      auto; lia. }
  exists g0, a0.
  destruct (Nat.ltb_spec c0 3) as [Hc | Hc].
  - rewrite (check_phase_again g1 a1 n (length records) c0 eq_refl eq_refl Hc)
      in Hload.
    inversion Hload; subst g. unfold warned. cbn [data samples variants].
    exists a1, n, (length records), c0, c0,
      (map variant_row records).
    split; [reflexivity|]. split; [exact Hd|]. split; [reflexivity|].
    split; [reflexivity|]. split; [reflexivity|]. split; [reflexivity|].
    split; [lia|]. split; [exact Hsm|]. split; [exact Hn|].
    split; [exact Hv|]. split; [apply length_map|]. split; [reflexivity|].
    intros i j k Hi Hj Hk. unfold a1. rewrite get3_build3 by lia.
    apply Hstrand; lia.
  - pose proof (check_phase_ok_eq g1 g a1 n (length records) c0 eq_refl
                  eq_refl Hc Hload) as Hg.
    subst g. cbn [data samples variants].
    exists (build3 (arr_dtype a1) n (length records) 2 (get3 a1)),
      n, (length records), c0, 2, (map variant_row records).
    split; [reflexivity|]. split; [exact Hd|]. split; [reflexivity|].
    split; [reflexivity|]. split; [reflexivity|]. split; [reflexivity|].
    split; [lia|]. split; [exact Hsm|]. split; [exact Hn|].
    split; [exact Hv|]. split; [apply length_map|]. split; [reflexivity|].
    intros i j k Hi Hj Hk. rewrite get3_build3 by lia.
    unfold a1. rewrite get3_build3 by lia.
    apply Hstrand; lia.
Qed.

(** ** The order of the steps *)

Lemma small_not_multiallelic (a : ndarray) (n m c i j : nat) :
  arr_shape a = Sh3 n m c ->
  (forall k, k < 2 -> k < c -> (get3 a i j k <= 1)%Z) ->
  multiallelic_at a i j = false.
Proof.
  intros Hs Hsmall. unfold multiallelic_at, channels. rewrite Hs.
  apply not_true_iff_false. intros H. apply existsb_exists in H.
  destruct H as (k & Hk & Hgt). apply in_seq in Hk.
  apply Z.ltb_lt in Hgt. specialize (Hsmall k). lia.
Qed.

(** X15. On a [uint8] tensor with the phase channel whose values are all 0
    or 1, the two checks can run in either order: both orders raise the same
    exception or both return, and when they return they leave the same
    object. *)
Theorem checks_commute (g : Genotypes) (a : ndarray) (n m c : nat) :
  data g = DArray a ->
  arr_dtype a = uint8 ->
  arr_shape a = Sh3 n m c ->
  3 <= c ->
  well_shaped a ->
  narrow_values a n m ->
  fst ((check_biallelic false ;;; check_phase) g)
    = fst ((check_phase ;;; check_biallelic false) g)
  /\ (fst ((check_biallelic false ;;; check_phase) g) = Ok tt ->
      snd ((check_biallelic false ;;; check_phase) g)
      = snd ((check_phase ;;; check_biallelic false) g)).
Proof.
  intros Hd Hdt Hs Hc Hw Hnarrow.
  assert (Ht : arr_dtype a <> bool_) by (rewrite Hdt; discriminate).
  assert (Hclean : first_flagged (multiallelic_at a) n m = None).
  { apply first_flagged_none_intro. intros i j Hi Hj.
    apply (small_not_multiallelic a n m c i j Hs).
    intros k Hk2 Hkc. apply Hnarrow; lia. }
  set (g1 := mk_Genotypes (fname g) (log g) (DArray (astype_bool a))
               (samples g) (variants g)).
  assert (Hget : forall i j k, i < n -> j < m -> k < c ->
            get3 (astype_bool a) i j k = truth (get3 a i j k))
    by (intros; apply (get3_map a bool_ truth n m c); assumption).
  assert (Hs1 : arr_shape (astype_bool a) = Sh3 n m c)
    by (unfold astype_bool; cbn; exact Hs).
  assert (Hnarrow1 : narrow_values (astype_bool a) n m).
  { intros i j k Hi Hj Hk. rewrite Hget by lia. apply truth_range. }
  assert (Hext :
    first_flagged (heterozygous_unphased (astype_bool a)) n m
    = first_flagged (heterozygous_unphased a) n m).
  { apply first_flagged_ext. intros i j Hi Hj. unfold heterozygous_unphased.
    rewrite !Hget by lia.
    rewrite !truth_small by (apply Hnarrow; lia). reflexivity. }
  pose proof (check_phase_narrow g1 (astype_bool a) n m c eq_refl Hs1 Hc
                Hnarrow1) as Hrun1.
  pose proof (check_phase_narrow g a n m c Hd Hs Hc Hnarrow) as Hrun0.
  rewrite Hext in Hrun1.
  unfold bind.
  rewrite (check_biallelic_clean_eq false g a n m c Hd Ht Hs Hclean).
  fold g1.
  destruct (first_flagged (heterozygous_unphased a) n m) as [[i j]|] eqn:Hfp.
  - rewrite Hrun1, Hrun0.
    change (report Unphased g1 i j) with (report Unphased g i j).
    destruct (report Unphased g i j) as [[]|e] eqn:Hrep.
    + exfalso. exact (report_not_ok _ _ _ _ Hrep).
    + split; [reflexivity | discriminate].
  - destruct Hrun1 as [g1' Hrun1]. destruct Hrun0 as [g0' Hrun0].
    pose proof (check_phase_ok_eq g1 g1' (astype_bool a) n m c eq_refl Hs1 Hc
                  Hrun1) as E1.
    pose proof (check_phase_ok_eq g g0' a n m c Hd Hs Hc Hrun0) as E0.
    rewrite Hrun1, Hrun0. subst g1' g0'.
    set (a2 := build3 (arr_dtype a) n m 2 (get3 a)).
    assert (Hs2 : arr_shape a2 = Sh3 n m 2) by reflexivity.
    assert (Ht2 : arr_dtype a2 <> bool_) by exact Ht.
    assert (Hclean2 : first_flagged (multiallelic_at a2) n m = None).
    { apply first_flagged_none_intro. intros i j Hi Hj.
      apply (small_not_multiallelic a2 n m 2 i j Hs2).
      intros k Hk2 _. unfold a2. rewrite get3_build3 by lia.
      apply Hnarrow; lia. }
    rewrite (check_biallelic_clean_eq false
               (mk_Genotypes (fname g) (log g) (DArray a2) (samples g)
                  (variants g))
               a2 n m 2 eq_refl Ht2 Hs2 Hclean2).
    cbn [fst snd fname log data samples variants g1].
    split; [reflexivity|]. intros _.
    f_equal. f_equal. unfold a2. rewrite astype_bool_build3.
    apply build3_ext. intros i j k Hi Hj Hk. apply Hget; lia.
Qed.

(** X16. [to_MAC] has to come after [check_biallelic]: on a [uint8]
    tensor with strand values 0 or 1 that holds a sample and a variant of
    frequency above 0.5, [to_MAC] returns and leaves the complemented values
    254 and 255 in that variant, so that [check_biallelic] then raises its
    [ValueError] although no call has a third allele. *)
Theorem to_MAC_before_check_biallelic (g : Genotypes) (a : ndarray)
    (rows : list variant_rec) (n m c j0 : nat) (r0 : variant_rec) :
  data g = DArray a ->
  arr_dtype a = uint8 ->
  arr_shape a = Sh3 n m c ->
  axes_agree g ->
  variants g = Structured "aaf" rows ->
  0 < n -> 0 < c ->
  (forall i j k, i < n -> j < m -> k < 2 -> k < c ->
     (0 <= get3 a i j k <= 1)%Z) ->
  nth_error rows j0 = Some r0 ->
  (0.5 <? v_freq r0)%float = true ->
  (forall i j, i < n -> j < m -> multiallelic_at a i j = false)
  /\ exists g1 id chrom pos name,
       to_MAC g = (Ok tt, g1)
       /\ check_biallelic false g1
          = (Raise (ValueError (Multiallelic id chrom pos name)), g1).
Proof.
  intros Hd Hdt Hs Hax Hv Hn Hc Hsmall Hj0 Hfreq.
  destruct (axes_agree_inv g a n m c Hax Hd Hs) as [Hns Hm].
  rewrite Hv in Hm. simpl in Hm.
  assert (Hj0m : j0 < m).
  { rewrite Hm. apply nth_error_Some. rewrite Hj0. discriminate. }
  split.
  { intros i j Hi Hj. apply (small_not_multiallelic a n m c i j Hs).
    intros k Hk2 Hkc. apply Hsmall; assumption. }
  rewrite (to_MAC_aaf_eq g a rows n m c Hd Hs Hv (eq_sym Hm)).
  set (a1 := build3 (arr_dtype a) n m c
    (fun i j k =>
       if (k <? 2)
          && nth j (map (fun r => (0.5 <? v_freq r)%float) rows) false
       then invert (arr_dtype a) (get3 a i j k)
       else get3 a i j k)).
  set (g1 := mk_Genotypes (fname g) (log g) (DArray a1) (samples g)
               (Structured "maf" (map recode_row rows))).
  assert (Hs1 : arr_shape a1 = Sh3 n m c) by reflexivity.
  assert (Ht1 : arr_dtype a1 <> bool_)
    by (unfold a1; cbn; rewrite Hdt; discriminate).
  assert (Hflag : multiallelic_at a1 0 j0 = true).
  { unfold multiallelic_at, channels. rewrite Hs1.
    apply existsb_exists. exists 0. split; [apply in_seq; lia|].
    unfold a1. rewrite get3_build3 by lia.
    rewrite (nth_map_of_nth_error _ rows j0 r0) by exact Hj0.
    rewrite Hfreq, Hdt. cbn [Nat.ltb Nat.leb andb invert].
    apply Z.ltb_lt. specialize (Hsmall 0 j0 0). lia. }
  destruct (first_flagged (multiallelic_at a1) n m) as [[i j]|] eqn:Hff.
  2:{ rewrite (first_flagged_none _ _ _ Hff 0 j0) in Hflag by lia.
      discriminate. }
  destruct (first_flagged_in _ _ _ _ _ Hff) as (Hi & Hj & _).
  destruct (report_in_range Multiallelic g1 i j)
    as (r & name & Hr & Hnm & Hrep).
  { cbn [samples g1]. lia. }
  { cbn [variants g1 len_variants]. rewrite length_map. lia. }
  exists g1, (v_id r), (v_chrom r), (v_pos r), name.
  split; [reflexivity|].
  rewrite (check_biallelic_report_eq g1 a1 n m c i j eq_refl Ht1 Hs1 Hff).
  rewrite Hrep. reflexivity.
Qed.

(** ** The further properties at the test fixture *)

Lemma narrow_check_sound (a : ndarray) (n m : nat) :
  narrow_check a n m = true -> narrow_values a n m.
Proof.
  unfold narrow_check, narrow_values. intros H i j k Hi Hj Hk.
  rewrite forallb_forall in H.
  specialize (H i (proj2 (in_seq n 0 i) (conj (Nat.le_0_l i) Hi))).
  rewrite forallb_forall in H.
  specialize (H j (proj2 (in_seq m 0 j) (conj (Nat.le_0_l j) Hj))).
  rewrite forallb_forall in H.
  specialize (H k (proj2 (in_seq 3 0 k) (conj (Nat.le_0_l k) Hk))).
  apply andb_prop in H. destruct H as [H0 H1].
  apply Z.leb_le in H0. apply Z.leb_le in H1. lia.
Qed.

Lemma loaded_narrow : narrow_values (tensor loaded) 5 4.
Proof. apply narrow_check_sound. vm_compute. reflexivity. Qed.

Lemma loaded_unphased_narrow : narrow_values (tensor loaded_unphased) 5 4.
Proof. apply narrow_check_sound. vm_compute. reflexivity. Qed.

Lemma loaded_axes : axes_agree loaded.
Proof. unfold axes_agree. cbn. split; reflexivity. Qed.

Lemma loaded_multiallelic_axes : axes_agree loaded_multiallelic.
Proof. unfold axes_agree. cbn. split; reflexivity. Qed.

Lemma loaded_unphased_axes : axes_agree loaded_unphased.
Proof. unfold axes_agree. cbn. split; reflexivity. Qed.

Lemma loaded_read :
  read simple_vcf None None (Genotypes_init "simple.vcf") = (Ok tt, loaded).
Proof. vm_compute. reflexivity. Qed.

Lemma check_biallelic_outcome_witness :
  (data loaded_multiallelic = DArray (tensor loaded_multiallelic)
   /\ arr_dtype (tensor loaded_multiallelic) <> bool_
   /\ arr_shape (tensor loaded_multiallelic) = Sh3 5 4 3
   /\ axes_agree loaded_multiallelic)
  /\ exists e, check_biallelic false loaded_multiallelic
               = (e, loaded_multiallelic).
Proof.
  assert (H1 : data loaded_multiallelic
               = DArray (tensor loaded_multiallelic)) by reflexivity.
  assert (H2 : arr_dtype (tensor loaded_multiallelic) <> bool_)
    by (vm_compute; discriminate).
  assert (H3 : arr_shape (tensor loaded_multiallelic) = Sh3 5 4 3)
    by reflexivity.
  pose proof loaded_multiallelic_axes as H4.
  split; [exact (conj H1 (conj H2 (conj H3 H4)))|].
  destruct (check_biallelic_outcome loaded_multiallelic
              (tensor loaded_multiallelic) 5 4 3 H1 H2 H3 H4)
    as [(i & j & r & name & Hrun & _) | (_ & g' & Hrun)].
  - eexists. exact Hrun.
  - exfalso. vm_compute in Hrun. discriminate.
Defined.

Lemma check_phase_outcome_witness :
  (data loaded_unphased = DArray (tensor loaded_unphased)
   /\ arr_shape (tensor loaded_unphased) = Sh3 5 4 3
   /\ 3 <= 3
   /\ narrow_values (tensor loaded_unphased) 5 4
   /\ axes_agree loaded_unphased)
  /\ exists e, check_phase loaded_unphased = (e, loaded_unphased).
Proof.
  assert (H1 : data loaded_unphased = DArray (tensor loaded_unphased))
    by reflexivity.
  assert (H2 : arr_shape (tensor loaded_unphased) = Sh3 5 4 3)
    by reflexivity.
  assert (H3 : 3 <= 3) by lia.
  pose proof loaded_unphased_narrow as H4.
  pose proof loaded_unphased_axes as H5.
  split; [exact (conj H1 (conj H2 (conj H3 (conj H4 H5))))|].
  destruct (check_phase_outcome loaded_unphased (tensor loaded_unphased)
              5 4 3 H1 H2 H3 H4 H5)
    as [(i & j & r & name & Hrun & _) | (_ & g' & Hrun)].
  - eexists. exact Hrun.
  - exfalso. vm_compute in Hrun. discriminate.
Defined.

Lemma loaded_clean :
  forall i j, i < 5 -> j < 4 -> multiallelic_at (tensor loaded) i j = false.
Proof.
  apply first_flagged_none. vm_compute. reflexivity.
Qed.

Lemma check_biallelic_narrows_clean_witness :
  (data loaded = DArray (tensor loaded)
   /\ arr_dtype (tensor loaded) <> bool_
   /\ arr_shape (tensor loaded) = Sh3 5 4 3
   /\ well_shaped (tensor loaded)
   /\ forall i j, i < 5 -> j < 4 ->
        multiallelic_at (tensor loaded) i j = false)
  /\ exists g1, check_biallelic true loaded = (Ok tt, g1)
                /\ variants g1 = variants loaded.
Proof.
  assert (H1 : data loaded = DArray (tensor loaded)) by reflexivity.
  assert (H2 : arr_dtype (tensor loaded) <> bool_)
    by (vm_compute; discriminate).
  assert (H3 : arr_shape (tensor loaded) = Sh3 5 4 3) by reflexivity.
  assert (H4 : well_shaped (tensor loaded)) by reflexivity.
  pose proof loaded_clean as H5.
  split; [exact (conj H1 (conj H2 (conj H3 (conj H4 H5))))|].
  destruct (check_biallelic_narrows_clean true loaded (tensor loaded) 5 4 3
              H1 H2 H3 H4 H5)
    as (g1 & a1 & Hrun & _ & _ & Hv & _).
  exists g1. split; assumption.
Defined.

Lemma check_biallelic_discard_returns_witness :
  axes_agree loaded_multiallelic
  /\ exists g', check_biallelic true loaded_multiallelic = (Ok tt, g').
Proof.
  split; [exact loaded_multiallelic_axes|].
  exact (check_biallelic_discard_returns loaded_multiallelic
           loaded_multiallelic_axes).
Defined.

Lemma check_phase_keeps_strands_witness :
  (data loaded = DArray (tensor loaded)
   /\ arr_shape (tensor loaded) = Sh3 5 4 3
   /\ 3 <= 3
   /\ check_phase loaded = (Ok tt, phase_dropped))
  /\ exists a1, data phase_dropped = DArray a1
                /\ arr_shape a1 = Sh3 5 4 2.
Proof.
  assert (H1 : data loaded = DArray (tensor loaded)) by reflexivity.
  assert (H2 : arr_shape (tensor loaded) = Sh3 5 4 3) by reflexivity.
  assert (H3 : 3 <= 3) by lia.
  assert (H4 : check_phase loaded = (Ok tt, phase_dropped))
    by (vm_compute; reflexivity).
  split; [exact (conj H1 (conj H2 (conj H3 H4)))|].
  destruct (check_phase_keeps_strands loaded phase_dropped (tensor loaded)
              5 4 3 H1 H2 H3 H4)
    as (a1 & Hd & Hs & _).
  exists a1. split; assumption.
Defined.

Lemma to_MAC_keeps_phase_and_ids_witness :
  (data loaded = DArray (tensor loaded)
   /\ arr_shape (tensor loaded) = Sh3 5 4 3
   /\ variants loaded = Structured "aaf" simple_rows
   /\ length simple_rows = 4)
  /\ exists g1 rows1,
       to_MAC loaded = (Ok tt, g1)
       /\ variants g1 = Structured "maf" rows1
       /\ map v_pos rows1 = map v_pos simple_rows.
Proof.
  assert (H1 : data loaded = DArray (tensor loaded)) by reflexivity.
  assert (H2 : arr_shape (tensor loaded) = Sh3 5 4 3) by reflexivity.
  assert (H3 : variants loaded = Structured "aaf" simple_rows)
    by reflexivity.
  assert (H4 : length simple_rows = 4) by reflexivity.
  split; [exact (conj H1 (conj H2 (conj H3 H4)))|].
  destruct (to_MAC_keeps_phase_and_ids loaded (tensor loaded) simple_rows
              5 4 3 H1 H2 H3 H4)
    as (g1 & a1 & rows1 & Hrun & _ & Hv & _ & _ & _ & _ & _ & _ & Hpos).
  exists g1, rows1. repeat split; assumption.
Defined.

Lemma to_MAC_raise_keeps_object_witness :
  to_MAC unread
    = (Raise (TypeError "'NoneType' object is not subscriptable"), unread)
  /\ unread = unread.
Proof.
  assert (H : to_MAC unread
              = (Raise (TypeError "'NoneType' object is not subscriptable"),
                 unread)) by reflexivity.
  split; [exact H|].
  exact (to_MAC_raise_keeps_object unread unread _ H).
Defined.

Lemma to_MAC_returns_witness :
  (axes_agree loaded
   /\ variants loaded = Structured "aaf" simple_rows
   /\ ("aaf"%string = "aaf"%string \/ "aaf"%string = "maf"%string))
  /\ exists g', to_MAC loaded = (Ok tt, g').
Proof.
  assert (H2 : variants loaded = Structured "aaf" simple_rows)
    by reflexivity.
  assert (H3 : "aaf"%string = "aaf"%string \/ "aaf"%string = "maf"%string)
    by (left; reflexivity).
  split; [exact (conj loaded_axes (conj H2 H3))|].
  exact (to_MAC_returns loaded "aaf" simple_rows loaded_axes H2 H3).
Defined.

Lemma read_aligns_variants_witness :
  read simple_vcf None None (Genotypes_init "simple.vcf") = (Ok tt, loaded)
  /\ exists rows,
       variants loaded = Structured "aaf" rows /\ length rows = 4.
Proof.
  split; [exact loaded_read|].
  destruct (read_aligns_variants simple_vcf None None
              (Genotypes_init "simple.vcf") loaded loaded_read)
    as (a & n & m & c & rows & _ & _ & _ & Hv & Hm & Hlen & _).
  exists rows. split; [exact Hv|]. rewrite Hlen, Hm. reflexivity.
Defined.



Lemma iterate_agrees_with_read_witness :
  read simple_vcf None None (Genotypes_init "simple.vcf") = (Ok tt, loaded)
  /\ exists yielded,
       iterate simple_vcf None None (Genotypes_init "simple.vcf")
         = (yielded, None).
Proof.
  split; [exact loaded_read|].
  destruct (iterate_agrees_with_read simple_vcf None None
              (Genotypes_init "simple.vcf") loaded loaded_read)
    as (a & n & m & c & rows & yielded & _ & _ & _ & Hit & _).
  exists yielded. exact Hit.
Defined.

Lemma load_outcome_witness :
  (reader_consistent (simple_vcf "simple.vcf" None)
   /\ read simple_vcf None None (Genotypes_init "simple.vcf")
      = (Ok tt, loaded)
   /\ data loaded = DArray (tensor loaded)
   /\ arr_shape (tensor loaded) = Sh3 5 4 3
   /\ 3 <= 3)
  /\ exists g, load simple_vcf "simple.vcf" None None = (Ok tt, g).
Proof.
  pose proof (simple_vcf_consistent "simple.vcf") as H1.
  assert (H3 : data loaded = DArray (tensor loaded)) by reflexivity.
  assert (H4 : arr_shape (tensor loaded) = Sh3 5 4 3) by reflexivity.
  assert (H5 : 3 <= 3) by lia.
  split; [exact (conj H1 (conj loaded_read (conj H3 (conj H4 H5))))|].
  destruct (load_outcome simple_vcf "simple.vcf" None None loaded
              (tensor loaded) 5 4 3 H1 loaded_read H3 H4 H5)
    as [(i & j & r & name & Hrun & _)
       | [(_ & i & j & r & name & Hrun & _) | (_ & _ & Hrun)]].
  - exfalso. vm_compute in Hrun. discriminate.
  - exfalso. vm_compute in Hrun. discriminate.
  - exact Hrun.
Defined.

Lemma load_result_witness :
  (reader_consistent (simple_vcf "simple.vcf" None)
   /\ load simple_vcf "simple.vcf" None None = (Ok tt, checked))
  /\ exists a, data checked = DArray a /\ arr_dtype a = bool_.
Proof.
  pose proof (simple_vcf_consistent "simple.vcf") as H1.
  assert (H2 : load simple_vcf "simple.vcf" None None = (Ok tt, checked))
    by (vm_compute; reflexivity).
  split; [exact (conj H1 H2)|].
  destruct (load_result simple_vcf "simple.vcf" None None checked H1 H2)
    as (g0 & a0 & a & n & m & c0 & c & rows & _ & _ & _ & Hd & Hdt & _).
  exists a. split; assumption.
Defined.

Lemma checks_commute_witness :
  (data loaded = DArray (tensor loaded)
   /\ arr_dtype (tensor loaded) = uint8
   /\ arr_shape (tensor loaded) = Sh3 5 4 3
   /\ 3 <= 3
   /\ well_shaped (tensor loaded)
   /\ narrow_values (tensor loaded) 5 4)
  /\ fst ((check_biallelic false ;;; check_phase) loaded)
     = fst ((check_phase ;;; check_biallelic false) loaded).
Proof.
  assert (H1 : data loaded = DArray (tensor loaded)) by reflexivity.
  assert (H2 : arr_dtype (tensor loaded) = uint8) by reflexivity.
  assert (H3 : arr_shape (tensor loaded) = Sh3 5 4 3) by reflexivity.
  assert (H4 : 3 <= 3) by lia.
  assert (H5 : well_shaped (tensor loaded)) by reflexivity.
  pose proof loaded_narrow as H6.
  split; [exact (conj H1 (conj H2 (conj H3 (conj H4 (conj H5 H6)))))|].
  exact (proj1 (checks_commute loaded (tensor loaded) 5 4 3
                  H1 H2 H3 H4 H5 H6)).
Defined.

Lemma to_MAC_before_check_biallelic_witness :
  (data loaded = DArray (tensor loaded)
   /\ arr_dtype (tensor loaded) = uint8
   /\ arr_shape (tensor loaded) = Sh3 5 4 3
   /\ axes_agree loaded
   /\ variants loaded = Structured "aaf" simple_rows
   /\ nth_error simple_rows 1
      = Some (mk_variant_rec "1:10116:A:G" "1" 10116 0.6)
   /\ (0.5 <? 0.6)%float = true)
  /\ exists g1 id chrom pos name,
       to_MAC loaded = (Ok tt, g1)
       /\ check_biallelic false g1
          = (Raise (ValueError (Multiallelic id chrom pos name)), g1).
Proof.
  assert (H1 : data loaded = DArray (tensor loaded)) by reflexivity.
  assert (H2 : arr_dtype (tensor loaded) = uint8) by reflexivity.
  assert (H3 : arr_shape (tensor loaded) = Sh3 5 4 3) by reflexivity.
  assert (H5 : variants loaded = Structured "aaf" simple_rows)
    by reflexivity.
  assert (H6 : nth_error simple_rows 1
               = Some (mk_variant_rec "1:10116:A:G" "1" 10116 0.6))
    by reflexivity.
  assert (H7 : (0.5 <? 0.6)%float = true) by reflexivity.
  split;
    [exact (conj H1 (conj H2 (conj H3 (conj loaded_axes
              (conj H5 (conj H6 H7))))))|].
  refine (proj2 (to_MAC_before_check_biallelic loaded (tensor loaded)
                   simple_rows 5 4 3 1
                   (mk_variant_rec "1:10116:A:G" "1" 10116 0.6)
                   H1 H2 H3 loaded_axes H5 _ _ _ H6 H7)); try lia.
  intros i j k Hi Hj Hk _. apply loaded_narrow; lia.
Defined.
